(** * EchoVision document processor: a shallow embedding of
    [src/document_processor.py] and the properties of its specification.

    The Python class [DocumentProcessor] keeps a list of pages (units), a
    cursor, and a handle to a collection of an embedding index (ChromaDB).
    Its methods are embedded as functions over a record of the object's
    fields.  Methods that only read or write the fields are pure functions
    [DocumentProcessor -> ...]; methods that call collaborators (file
    parsers, the file system, the index service) live in a small
    state-and-exception monad over the collaborators' world and the object.

    Python integers are [Z]; a Python [str] is a list of characters; a
    raised exception is the [Raised] outcome. *)

From Stdlib Require Import ZArith Ascii String DecimalString.
From stdpp Require Import base tactics option list numbers strings.

Local Open Scope Z_scope.

(** ** Python strings and sequences *)

Definition str : Type := list ascii.

(** A string literal of the source. *)
Definition lit (s : string) : str := list_ascii_of_string s.

(** [len(x)] *)
Definition len {A} (l : list A) : Z := Z.of_nat (length l).

(** The adjustment Python applies to one bound of a slice [x[a:b]] of a
    sequence of length [n]: a negative bound counts from the end, and both
    are clipped to [0..n]. *)
Definition slice_bound (n i : Z) : Z :=
  if i <? 0 then Z.max 0 (i + n) else Z.min i n.

(** [x[a:b]] on strings and lists (step 1). *)
Definition py_slice {A} (l : list A) (a b : Z) : list A :=
  let lo := slice_bound (len l) a in
  let hi := slice_bound (len l) b in
  take (Z.to_nat (hi - lo)) (drop (Z.to_nat lo) l).

(** [s.startswith(p)] *)
Fixpoint startswith (s p : str) {struct p} : bool :=
  match p, s with
  | [], _ => true
  | _ :: _, [] => false
  | c :: p', d :: s' => if decide (c = d) then startswith s' p' else false
  end.

(** [t.find(q)]: the lowest index at which [q] occurs in [t], or [-1].
    [find_from t q i] scans the suffix [t] of the text that starts at
    offset [i]. *)
Fixpoint find_from (t q : str) (i : Z) : Z :=
  if startswith t q then i
  else match t with
       | [] => -1
       | _ :: t' => find_from t' q (i + 1)
       end.

Definition find (t q : str) : Z := find_from t q 0.

(** [sep.join(l)] *)
Fixpoint join (sep : str) (l : list str) : str :=
  match l with
  | [] => []
  | [x] => x
  | x :: l' => x ++ sep ++ join sep l'
  end.

(** The newline character, and the truth value of a sequence
    ([if x:] holds when [x] is not empty). *)
Definition nl : str := [ascii_of_nat 10].

Definition truthy {A} (l : list A) : bool :=
  match l with [] => false | _ :: _ => true end.

(** [str(z)] and the [{z}] of an f-string, for an integer. *)
Definition str_of_Z (z : Z) : str := lit (NilZero.string_of_int (Z.to_int z)).

(** The part of [str] that depends on Unicode's character tables is a
    parameter: which characters are whitespace ([str.isspace], used by
    [strip] and [split]) and the lower-casing of a string ([str.lower],
    which may change its length). *)
Class PyText := {
  isspace : ascii -> bool;
  lower : str -> str
}.

Section Text.
Context {txt : PyText}.

Fixpoint lstrip (s : str) : str :=
  match s with
  | [] => []
  | c :: s' => if isspace c then lstrip s' else s
  end.

(** [s.strip()] *)
Definition strip (s : str) : str := rev (lstrip (rev (lstrip s))).

(** [s.split()]: the maximal runs of non-whitespace characters.  [cur] is
    the word being read. *)
Fixpoint split_from (cur : str) (s : str) : list str :=
  match s with
  | [] => match cur with [] => [] | _ => [cur] end
  | c :: s' =>
      if isspace c
      then match cur with [] => split_from [] s' | _ => cur :: split_from [] s' end
      else split_from (cur ++ [c]) s'
  end.

Definition split (s : str) : list str := split_from [] s.

End Text.

(** The loop variable of [for i in range(start, stop, step)] with a positive
    step: [start], [start + step], ... while below [stop].  The fuel bounds
    the number of iterations. *)
Fixpoint range_loop (fuel : nat) (i stop step : Z) : list Z :=
  match fuel with
  | O => []
  | S fuel' => if i <? stop then i :: range_loop fuel' (i + step) stop step else []
  end.

Definition py_range (start stop step : Z) : list Z :=
  range_loop (Z.to_nat (stop - start)) start stop step.

(** ** The data model *)

(** A page: [{"index": int, "text": str, "label": str}]. *)
Record page := Page { index : Z; text : str; label : str }.

(** What a call to a collaborator or a method yields: a value, or a raised
    exception (every [except] of the source catches [Exception]). *)
Inductive outcome (A : Type) : Type :=
| Ok (a : A)
| Raised.
Arguments Ok {A} a.
Arguments Raised {A}.

(** The fields of a [DocumentProcessor].  [chroma_client] and
    [embedding_fn] are handles to the index service, whose state is part of
    the collaborators' world below; [collection] is [None] or a handle to a
    collection of that service. *)
Record DocumentProcessor (Collection : Type) := mkDP {
  pages : list page;
  current_page : Z;
  file_path : option str;
  doc_type : option str;
  title : str;
  collection_name : str;
  collection : option Collection
}.
Arguments mkDP {Collection}.
Arguments pages {Collection}.
Arguments current_page {Collection}.
Arguments file_path {Collection}.
Arguments doc_type {Collection}.
Arguments title {Collection}.
Arguments collection_name {Collection}.
Arguments collection {Collection}.

Section Fields.
Context {Collection : Type}.
Local Abbreviation DP := (DocumentProcessor Collection).

(** [DocumentProcessor()] *)
Definition init : DP :=
  mkDP [] 0 None None (lit "Untitled Document") (lit "doc_collection") None.

Definition set_pages (ps : list page) (self : DP) : DP :=
  mkDP ps (current_page self) (file_path self) (doc_type self) (title self)
       (collection_name self) (collection self).
Definition set_current_page (c : Z) (self : DP) : DP :=
  mkDP (pages self) c (file_path self) (doc_type self) (title self)
       (collection_name self) (collection self).
Definition set_file_path (p : option str) (self : DP) : DP :=
  mkDP (pages self) (current_page self) p (doc_type self) (title self)
       (collection_name self) (collection self).
Definition set_doc_type (d : option str) (self : DP) : DP :=
  mkDP (pages self) (current_page self) (file_path self) d (title self)
       (collection_name self) (collection self).
Definition set_title (t : str) (self : DP) : DP :=
  mkDP (pages self) (current_page self) (file_path self) (doc_type self) t
       (collection_name self) (collection self).
Definition set_collection (c : option Collection) (self : DP) : DP :=
  mkDP (pages self) (current_page self) (file_path self) (doc_type self)
       (title self) (collection_name self) c.

(** ** Methods that touch only the fields *)

Definition page_count (self : DP) : Z := len (pages self).

(** [self.pages[i]["text"]] under the guard [0 <= i < len(self.pages)]. *)
Definition text_at (self : DP) (i : Z) : str :=
  match pages self !! Z.to_nat i with
  | Some p => text p
  | None => []
  end.

Definition get_page (self : DP) (index : Z) : str :=
  if bool_decide (0 <= index < len (pages self)) then text_at self index else [].

Definition get_current_text (self : DP) : str := get_page self (current_page self).

Definition get_current_label (self : DP) : str :=
  if bool_decide (0 <= current_page self < len (pages self))
  then match pages self !! Z.to_nat (current_page self) with
       | Some p => label p
       | None => []
       end
  else lit "Unknown".

Definition next_page (self : DP) : DP * bool :=
  if bool_decide (current_page self < len (pages self) - 1)
  then (set_current_page (current_page self + 1) self, true)
  else (self, false).

Definition prev_page (self : DP) : DP * bool :=
  if bool_decide (current_page self > 0)
  then (set_current_page (current_page self - 1) self, true)
  else (self, false).

Definition go_to_page (self : DP) (index : Z) : DP * bool :=
  if bool_decide (0 <= index < len (pages self))
  then (set_current_page index self, true)
  else (self, false).

Definition get_full_text (self : DP) (max_chars : Z) : str :=
  let combined := join (nl ++ nl) (text <$> pages self) in
  py_slice combined 0 max_chars.

Definition get_chapter_text (self : DP) (chapter_num : Z) : str :=
  let idx := chapter_num - 1 in
  if bool_decide (0 <= idx < len (pages self)) then text_at self idx else [].

End Fields.

(** ** Collaborators

    What the parsers hand to the loaders. *)

(** A paragraph of a word-processor document: [para.style.name] and
    [para.text]. *)
Record paragraph := Paragraph { style_name : str; para_text : str }.

(** An item of an e-book: whether [item.get_type()] is [ITEM_DOCUMENT],
    the [soup.get_text(separator="\n")] of its content, and the
    [get_text()] of the first [h1], [h2] or [h3] tag when there is one. *)
Record epub_item := EpubItem {
  is_document : bool;
  soup_text : str;
  title_tag : option str
}.

(** The metadata stored with a chunk: [{"page": ..., "label": ...}]. *)
Record metadata := Metadata { meta_page : Z; meta_label : str }.

(** The world of the collaborators: the file system with the format
    parsers, the identifier generator, and the ChromaDB client with its
    collections.  Every operation that can fail yields an [outcome]; an
    operation that changes the world returns the new one.  A page of a PDF
    yields its text, or raises, when [get_text] is called on it.
    [collection_query] yields [results["documents"]]. *)
Class World := {
  world : Type;
  Collection : Type;
  os_path_splitext : str -> str * str;
  os_path_basename : str -> str;
  os_path_isfile : world -> str -> bool;
  os_remove : world -> str -> world * outcome unit;
  fitz_open : world -> str -> outcome (list (outcome str));
  docx_Document : world -> str -> outcome (list paragraph);
  epub_read_epub : world -> str -> outcome (list epub_item);
  open_read : world -> str -> outcome str;
  uuid4 : world -> world * str;
  delete_collection : world -> str -> world * outcome unit;
  create_collection : world -> str -> world * outcome Collection;
  collection_add :
    world -> Collection -> list str -> list metadata -> list str -> world * outcome unit;
  collection_count : world -> Collection -> outcome Z;
  collection_query :
    world -> Collection -> str -> Z -> outcome (option (list (list str)))
}.

(** ** The monad of the methods that call collaborators

    A computation reads and writes the world and the object, and ends with
    a value or a raised exception; the writes made before a raise stay. *)
Section Monad.
Context {wld : World}.

Definition St : Type := world * DocumentProcessor Collection.
Definition M (A : Type) : Type := St -> St * outcome A.

Definition ret {A} (a : A) : M A := fun s => (s, Ok a).
Definition bind {A B} (m : M A) (k : A -> M B) : M B :=
  fun s => match m s with
           | (s', Ok a) => k a s'
           | (s', Raised) => (s', Raised)
           end.
(** [try: body / except Exception: handler] *)
Definition try_except {A} (body handler : M A) : M A :=
  fun s => match body s with
           | (s', Ok a) => (s', Ok a)
           | (s', Raised) => handler s'
           end.
Definition get_self : M (DocumentProcessor Collection) := fun s => (s, Ok (snd s)).
Definition modify (f : DocumentProcessor Collection -> DocumentProcessor Collection) : M unit :=
  fun s => ((fst s, f (snd s)), Ok tt).
(** A call that changes the world. *)
Definition call {A} (f : world -> world * outcome A) : M A :=
  fun s => let (w', r) := f (fst s) in ((w', snd s), r).
(** A call that reads the world, and one that reads it and cannot fail. *)
Definition ask {A} (f : world -> outcome A) : M A :=
  fun s => (s, f (fst s)).
Definition gets {A} (f : world -> A) : M A :=
  fun s => (s, Ok (f (fst s))).
(** A value that a Python expression yields or fails to yield. *)
Definition of_outcome {A} (r : outcome A) : M A := fun s => (s, r).

End Monad.

Declare Scope py_scope.
Delimit Scope py_scope with py.
Notation "x <- m ;; k" := (bind m (fun x => k))
  (at level 100, m at next level, right associativity) : py_scope.
Notation "m ;; k" := (bind m (fun _ => k))
  (at level 100, right associativity) : py_scope.

(** ** The loaders *)

Section Loaders.
Context {txt : PyText} {wld : World}.
Local Open Scope py_scope.

(** The loop of [_load_pdf]: [i] is the number of the page in the file,
    [pgs] is [self.pages].  It returns the pages and whether a page raised;
    the pages appended before a raise stay. *)
Fixpoint pdf_loop (i : Z) (doc : list (outcome str)) (pgs : list page)
  : list page * outcome unit :=
  match doc with
  | [] => (pgs, Ok tt)
  | Raised :: _ => (pgs, Raised)
  | Ok raw :: rest =>
      let text := strip raw in
      if truthy text
      then pdf_loop (i + 1) rest (pgs ++ [Page i text (lit "Page " ++ str_of_Z (i + 1))])
      else pdf_loop (i + 1) rest pgs
  end.

Definition _load_pdf (filepath : str) : M unit :=
  doc <- ask (fun w => fitz_open w filepath) ;;
  self <- get_self ;;
  let (pgs, r) := pdf_loop 0 doc (pages self) in
  modify (set_pages pgs) ;;
  of_outcome r.

(** The loops of [_load_docx] (without headings) and [_load_txt]: windows of
    [chunk_size] words, one page per window. *)
Definition window_pages (chunk_size : Z) (words : list str) (pgs : list page)
  : list page :=
  pgs ++ ((fun i => Page (i / chunk_size)
                         (join (lit " ") (py_slice words i (i + chunk_size)))
                         (lit "Section " ++ str_of_Z (i / chunk_size + 1)))
          <$> py_range 0 (len words) chunk_size).

(** The state of the first loop of [_load_docx]. *)
Record docx_state := DocxState {
  dx_pages : list page;
  current_chunk : list str;
  chapter_idx : Z;
  chapter_label : str
}.

Definition docx_step (st : docx_state) (para : paragraph) : docx_state :=
  if startswith (style_name para) (lit "Heading")
  then
    let st1 :=
      if truthy (current_chunk st)
      then DocxState
             (dx_pages st ++ [Page (chapter_idx st) (join nl (current_chunk st)) (chapter_label st)])
             (current_chunk st) (chapter_idx st + 1) (chapter_label st)
      else st in
    let label :=
      if truthy (strip (para_text para)) then strip (para_text para)
      else lit "Section " ++ str_of_Z (chapter_idx st1 + 1) in
    DocxState (dx_pages st1) [] (chapter_idx st1) label
  else
    if truthy (strip (para_text para))
    then DocxState (dx_pages st) (current_chunk st ++ [strip (para_text para)])
                   (chapter_idx st) (chapter_label st)
    else st.

Definition docx_pages (paragraphs : list paragraph) (pgs : list page) : list page :=
  let st := foldl docx_step (DocxState pgs [] 0 (lit "Section 1")) paragraphs in
  let pgs1 :=
    if truthy (current_chunk st)
    then dx_pages st ++ [Page (chapter_idx st) (join nl (current_chunk st)) (chapter_label st)]
    else dx_pages st in
  if truthy pgs1 then pgs1
  else
    let all_text :=
      join nl (para_text <$> filter (fun p => truthy (strip (para_text p)) = true) paragraphs) in
    window_pages 500 (split all_text) pgs1.

Definition _load_docx (filepath : str) : M unit :=
  paragraphs <- ask (fun w => docx_Document w filepath) ;;
  modify (fun self => set_pages (docx_pages paragraphs (pages self)) self).

(** The loop of [_load_epub]; the state is [self.pages] and [chapter_idx]. *)
Definition epub_step (st : list page * Z) (item : epub_item) : list page * Z :=
  let (pgs, chapter_idx) := st in
  if is_document item
  then
    let text := strip (soup_text item) in
    if bool_decide (len text > 100)
    then
      let label :=
        match title_tag item with
        | Some t => strip t
        | None => lit "Chapter " ++ str_of_Z (chapter_idx + 1)
        end in
      (pgs ++ [Page chapter_idx text label], chapter_idx + 1)
    else st
  else st.

Definition epub_pages (items : list epub_item) (pgs : list page) : list page :=
  fst (foldl epub_step (pgs, 0) items).

Definition _load_epub (filepath : str) : M unit :=
  items <- ask (fun w => epub_read_epub w filepath) ;;
  modify (fun self => set_pages (epub_pages items (pages self)) self).

Definition _load_txt (filepath : str) : M unit :=
  content <- ask (fun w => open_read w filepath) ;;
  modify (fun self => set_pages (window_pages 600 (split content) (pages self)) self).

(** ** The vector index *)

Definition chunk_size : Z := 300.
Definition overlap : Z := 50.

(** The word windows of one page: [words[i:i + chunk_size]] for [i] in
    [range(0, len(words), chunk_size - overlap)]. *)
Definition page_windows (words : list str) : list (list str) :=
  (fun i => py_slice words i (i + chunk_size))
    <$> py_range 0 (len words) (chunk_size - overlap).

(** The chunks of one page's words, as appended to [docs]. *)
Definition page_chunks (words : list str) : list str :=
  join (lit " ") <$> page_windows words.

(** [docs] and [metadatas] after the loop over [self.pages]. *)
Definition index_docs (pgs : list page) : list str :=
  pgs ≫= (fun p => page_chunks (split (text p))).

Definition index_metadatas (pgs : list page) : list metadata :=
  pgs ≫= (fun p => (fun _ => Metadata (index p) (label p)) <$> page_chunks (split (text p))).

(** [ids]: one [str(uuid.uuid4())] per chunk, drawn in the order of the
    chunks. *)
Fixpoint draw_ids (n : nat) : M (list str) :=
  match n with
  | O => ret []
  | S n' => id <- call (fun w => let (w', u) := uuid4 w in (w', Ok u)) ;;
            ids <- draw_ids n' ;;
            ret (id :: ids)
  end.

(** The body of the outer [try] of [_build_vector_index]. *)
Definition build_body : M unit :=
  self <- get_self ;;
  try_except (call (fun w => delete_collection w (collection_name self))) (ret tt) ;;
  c <- call (fun w => create_collection w (collection_name self)) ;;
  modify (set_collection (Some c)) ;;
  let docs := index_docs (pages self) in
  let metadatas := index_metadatas (pages self) in
  ids <- draw_ids (length docs) ;;
  if truthy docs
  then call (fun w => collection_add w c docs metadatas ids)
  else ret tt.

Definition _build_vector_index : M unit :=
  try_except build_body (modify (set_collection None)).

(** ** [load], [unload] and retrieval *)

(** The [if]/[elif] chain of [load]: [true] when a loader ran, [false] at
    the [return False] of the last [else]. *)
Definition load_dispatch (ext filepath : str) : M bool :=
  if decide (ext = lit ".pdf")
  then _load_pdf filepath ;; modify (set_doc_type (Some (lit "PDF"))) ;; ret true
  else if decide (ext = lit ".docx" \/ ext = lit ".doc")
  then _load_docx filepath ;; modify (set_doc_type (Some (lit "DOCX"))) ;; ret true
  else if decide (ext = lit ".epub")
  then _load_epub filepath ;; modify (set_doc_type (Some (lit "EPUB"))) ;; ret true
  else if decide (ext = lit ".txt")
  then _load_txt filepath ;; modify (set_doc_type (Some (lit "TXT"))) ;; ret true
  else ret false.

(** The object after the four assignments that open [load]. *)
Definition load_reset (filepath : str) (self : DocumentProcessor Collection) :=
  set_title (os_path_basename filepath)
    (set_file_path (Some filepath) (set_current_page 0 (set_pages [] self))).

Definition load (filepath : str) : M bool :=
  let ext := lower (snd (os_path_splitext filepath)) in
  modify (set_pages []) ;;
  modify (set_current_page 0) ;;
  modify (set_file_path (Some filepath)) ;;
  modify (set_title (os_path_basename filepath)) ;;
  try_except
    (supported <- load_dispatch ext filepath ;;
     if supported : bool
     then
       self <- get_self ;;
       if bool_decide (len (pages self) > 0)
       then _build_vector_index ;; ret true
       else ret false
     else ret false)
    (ret false).

Definition unload (delete_file : bool) : M bool :=
  try_except
    (self <- get_self ;;
     (match file_path self with
      | Some path =>
          if delete_file && truthy path
          then
            is_file <- gets (fun w => os_path_isfile w path) ;;
            if is_file : bool
            then try_except (call (fun w => os_remove w path)) (ret tt)
            else ret tt
          else ret tt
      | None => ret tt
      end) ;;
     (match collection self with
      | Some _ =>
          try_except
            (call (fun w => delete_collection w (collection_name self)) ;;
             modify (set_collection None))
            (ret tt)
      | None => ret tt
      end) ;;
     modify (set_pages []) ;;
     modify (set_current_page 0) ;;
     modify (set_file_path None) ;;
     modify (set_doc_type None) ;;
     modify (set_title (lit "Untitled Document")) ;;
     ret true)
    (ret false).

(** What [get_relevant_context] does with the answer of the index. *)
Definition context_of (self : DocumentProcessor Collection)
  (documents : option (list (list str))) : str :=
  match documents with
  | None | Some [] | Some ([] :: _) => get_full_text self 10000
  | Some (documents :: _) => join (nl ++ lit "..." ++ nl) documents
  end.

Definition get_relevant_context (query : str) (n_results : Z) : M str :=
  self <- get_self ;;
  match collection self with
  | None => ret (get_full_text self 10000)
  | Some c =>
      count <- ask (fun w => collection_count w c) ;;
      if bool_decide (count = 0) then ret (get_full_text self 10000)
      else
        count <- ask (fun w => collection_count w c) ;;
        let k := Z.min n_results count in
        if bool_decide (k = 0) then ret []
        else
          try_except
            (results <- ask (fun w => collection_query w c query k) ;;
             ret (context_of self results))
            (ret (get_full_text self 10000))
  end.

End Loaders.

(** ** Lexical search *)

(** A match: [{"page": ..., "label": ..., "snippet": ...}]. *)
Record search_match := Match { m_page : Z; m_label : str; m_snippet : str }.

Section Search.
Context {txt : PyText} {Collection : Type}.

(** The body of the loop of [search] for one page; [q] is the lowered
    query. *)
Definition search_page (q : str) (page : page) : option search_match :=
  let t := lower (text page) in
  let pos := find t q in
  if bool_decide (pos <> -1)
  then Some (Match (index page) (label page)
                   (py_slice (text page) (Z.max 0 (pos - 60)) (pos + 120)))
  else None.

Definition search (self : DocumentProcessor Collection) (query : str)
  : list search_match :=
  omap (search_page (lower query)) (pages self).

End Search.

(** ** A small world to run the methods in

    Files are kept by path, collections by name; a collection handle is the
    collection's name.  The embedder can be down, in which case adding
    documents raises.  Deleting or counting a collection that does not
    exist raises, creating one that exists raises, and a query raises
    unless [0 < k <= count]. *)
Module Toy.

Definition ascii_isspace (c : ascii) : bool :=
  let n := nat_of_ascii c in
  ((9 <=? n) && (n <=? 13) || (28 <=? n) && (n <=? 32))%nat.

Definition ascii_lower_char (c : ascii) : ascii :=
  let n := nat_of_ascii c in
  if ((65 <=? n) && (n <=? 90))%nat then ascii_of_nat (n + 32) else c.

#[export] Instance ascii_text : PyText :=
  {| isspace := ascii_isspace; lower := map ascii_lower_char |}.

Inductive file :=
| PdfFile (pgs : list (outcome str))
| DocxFile (paragraphs : list paragraph)
| EpubFile (items : list epub_item)
| TxtFile (content : str).

Record toy := mkToy {
  files : list (str * file);
  collections : list (str * list str);
  embedder_up : bool;
  drawn : Z
}.

Fixpoint assoc {V} (k : str) (l : list (str * V)) : option V :=
  match l with
  | [] => None
  | (k', v) :: l' => if decide (k = k') then Some v else assoc k l'
  end.

Fixpoint remove_key {V} (k : str) (l : list (str * V)) : list (str * V) :=
  match l with
  | [] => []
  | (k', v) :: l' => if decide (k = k') then remove_key k l' else (k', v) :: remove_key k l'
  end.

(** The index of the last occurrence of a character, or [-1]
    ([str.rfind]). *)
Fixpoint rfind_char (c : ascii) (s : str) (i found : Z) : Z :=
  match s with
  | [] => found
  | d :: s' => rfind_char c s' (i + 1) (if decide (c = d) then i else found)
  end.

Definition slash : ascii := ascii_of_nat 47.
Definition dot : ascii := ascii_of_nat 46.

Definition basename (p : str) : str :=
  drop (Z.to_nat (rfind_char slash p 0 (-1) + 1)) p.

(** [posixpath.splitext]: the extension starts at the last dot of the last
    component, unless only dots precede it there. *)
Definition splitext (p : str) : str * str :=
  let sep := rfind_char slash p 0 (-1) in
  let d := rfind_char dot p 0 (-1) in
  if bool_decide (d > sep)
     && negb (forallb (fun c => bool_decide (c = dot))
                      (py_slice p (sep + 1) d))
  then (py_slice p 0 d, drop (Z.to_nat d) p)
  else (p, []).

Definition read_file {A} (pick : file -> option A) (w : toy) (path : str) : outcome A :=
  match assoc path (files w) ≫= pick with
  | Some a => Ok a
  | None => Raised
  end.

Definition set_collections (cs : list (str * list str)) (w : toy) : toy :=
  mkToy (files w) cs (embedder_up w) (drawn w).

#[export] Instance toy_world : World := {|
  world := toy;
  Collection := str;
  os_path_splitext := splitext;
  os_path_basename := basename;
  os_path_isfile := fun w path => bool_decide (is_Some (assoc path (files w)));
  os_remove := fun w path =>
    match assoc path (files w) with
    | Some _ => (mkToy (remove_key path (files w)) (collections w) (embedder_up w) (drawn w), Ok tt)
    | None => (w, Raised)
    end;
  fitz_open := read_file (fun f => match f with PdfFile pgs => Some pgs | _ => None end);
  docx_Document := read_file (fun f => match f with DocxFile ps => Some ps | _ => None end);
  epub_read_epub := read_file (fun f => match f with EpubFile items => Some items | _ => None end);
  open_read := read_file (fun f => match f with TxtFile content => Some content | _ => None end);
  uuid4 := fun w =>
    (mkToy (files w) (collections w) (embedder_up w) (drawn w + 1),
     lit "id-" ++ str_of_Z (drawn w));
  delete_collection := fun w name =>
    match assoc name (collections w) with
    | Some _ => (set_collections (remove_key name (collections w)) w, Ok tt)
    | None => (w, Raised)
    end;
  create_collection := fun w name =>
    match assoc name (collections w) with
    | Some _ => (w, Raised)
    | None => (set_collections ((name, []) :: collections w) w, Ok name)
    end;
  collection_add := fun w c docs _ _ =>
    match assoc c (collections w) with
    | Some old =>
        if embedder_up w
        then (set_collections ((c, old ++ docs) :: remove_key c (collections w)) w, Ok tt)
        else (w, Raised)
    | None => (w, Raised)
    end;
  collection_count := fun w c =>
    match assoc c (collections w) with
    | Some docs => Ok (len docs)
    | None => Raised
    end;
  collection_query := fun w c _ k =>
    match assoc c (collections w) with
    | Some docs =>
        if bool_decide (0 < k <= len docs)
        then Ok (Some [take (Z.to_nat k) docs])
        else Raised
    | None => Raised
    end
|}.

(** A text of [n] words. *)
Definition words_text (n : nat) : str := join (lit " ") (replicate n (lit "w")).

Definition new_world (fs : list (str * file)) : toy := mkToy fs [] true 0.

End Toy.

Module Examples.
Import Toy.

(** A flat-text file of 650 words, a PDF whose second page is blank, and a
    PDF whose second page cannot be read. *)
Definition shelf : list (str * file) :=
  [(lit "a.txt", TxtFile (words_text 650));
   (lit "b.pdf", PdfFile [Ok (lit "one"); Ok (lit "  "); Ok (lit "three")]);
   (lit "c.pdf", PdfFile [Ok (lit "one"); Raised; Ok (lit "three")])].

Definition library : toy := new_world shelf.

(** The same files with the embedder down. *)
Definition library_embedder_down : toy := mkToy shelf [] false 0.

(** A processor that has loaded the PDF. *)
Definition reading_pdf : St := fst (load (lit "b.pdf") (library, init)).

(** Two processors on one client: the first loads the text file, the
    second loads the PDF (which replaces the collection) and unloads (which
    deletes it).  [first_after] is the first processor in the world the
    second one leaves. *)
Definition first_loaded : St := fst (load (lit "a.txt") (library, init)).
Definition second_loaded : St := fst (load (lit "b.pdf") (fst first_loaded, init)).
Definition second_unloaded : St := fst (unload false second_loaded).
Definition first_after : St := (fst second_unloaded, snd first_loaded).

End Examples.

(** ** Notions used to state the properties *)

(** [q] occurs in [t] at offset [n]. *)
Definition occurs_at (t q : str) (n : nat) : Prop :=
  exists pre post, t = pre ++ q ++ post /\ length pre = n.

Definition contains (t q : str) : Prop := exists n, occurs_at t q n.

Definition first_occurrence (t q : str) (n : nat) : Prop :=
  occurs_at t q n /\ forall m, occurs_at t q m -> (n <= m)%nat.

(** The characters of [t] from offset [a] up to, not including, offset
    [b], as far as [t] has them. *)
Definition chars_between {A} (t : list A) (a b : nat) : list A :=
  take (b - a) (drop a t).

(** What [search] is to return for a list of pages, in the words of the
    specification: pages are visited in order, a page whose lowered text
    does not contain the lowered query gives nothing, and a page that
    contains it gives one match, with the snippet cut around the first
    occurrence [pos], from 60 characters before it to 120 after its start
    ([pos - 60] on [nat] is 0 when [pos] is below 60). *)
Inductive search_spec {txt : PyText} (query : str) : list page -> list search_match -> Prop :=
| search_spec_nil : search_spec query [] []
| search_spec_skip p ps ms :
    ~ contains (lower (text p)) (lower query) ->
    search_spec query ps ms ->
    search_spec query (p :: ps) ms
| search_spec_hit p ps ms pos :
    first_occurrence (lower (text p)) (lower query) pos ->
    search_spec query ps ms ->
    search_spec query (p :: ps)
      (Match (index p) (label p) (chars_between (text p) (pos - 60) (pos + 120)) :: ms).

(** The ceiling of [a / b] for a positive [b]. *)
Definition ceil_div (a b : Z) : Z := (a + b - 1) / b.

(** The stride of the index chunker, and the window that starts at the
    [i]-th stride: the words at offsets [i * stride] up to, not including,
    [i * stride + chunk_size], as far as there are words. *)
Definition stride : nat := Z.to_nat (chunk_size - overlap).

Definition nth_window (words : list str) (i : nat) : list str :=
  chars_between words (i * stride) (i * stride + Z.to_nat chunk_size).

(** A word as [split] yields them: not empty and free of whitespace. *)
Definition is_word {txt : PyText} (w : str) : Prop :=
  w <> [] /\ Forall (fun c => isspace c = false) w.

(** The pages' [index] fields count up from 0 along the list. *)
Definition contiguous (pgs : list page) : Prop :=
  forall j p, pgs !! j = Some p -> index p = Z.of_nat j.

(** The pages' [index] fields increase strictly along the list. *)
Definition increasing (pgs : list page) : Prop :=
  forall j k p q, (j < k)%nat -> pgs !! j = Some p -> pgs !! k = Some q -> index p < index q.

(** A page of the index list comes from the page of the PDF whose number
    is its [index]: that page has text, and the unit holds it stripped. *)
Definition from_pdf_page {txt : PyText} (doc : list (outcome str)) (p : page) : Prop :=
  0 <= index p /\
  exists raw, doc !! Z.to_nat (index p) = Some (Ok raw) /\ text p = strip raw.

(** The invariant of the first loop of [_load_docx]: the pages count up
    from 0 and [chapter_idx] is the next index. *)
Definition docx_inv (st : docx_state) : Prop :=
  contiguous (dx_pages st) /\ chapter_idx st = len (dx_pages st).

(** The invariant of the loop of [_load_pdf] at page number [i] of the
    file [doc]: every unit carries the number of the page it came from, so
    the indexes increase strictly, none is below its position, and all are
    below [i]. *)
Definition pdf_inv {txt : PyText} (doc : list (outcome str)) (i : Z) (pgs : list page) : Prop :=
  increasing pgs /\
  (forall j p, pgs !! j = Some p -> Z.of_nat j <= index p < i) /\
  Forall (from_pdf_page doc) pgs.

(** The unloaded state of the specification's data model. *)
Definition unloaded {C} (self : DocumentProcessor C) : Prop :=
  pages self = [] /\ current_page self = 0 /\ collection self = None.

(** ** Notions used to state the further properties *)

(** Outcomes can be compared when their values can. *)
#[global] Instance outcome_eq_dec {A : Type} {dec : EqDecision A} : EqDecision (outcome A).
Proof. solve_decision. Defined.

(** A string has text when one of its characters is not whitespace. *)
Definition has_text {txt : PyText} (s : str) : Prop :=
  Exists (fun c => isspace c = false) s.

(** A heading paragraph, as [_load_docx] tells them. *)
Definition is_heading (p : paragraph) : bool :=
  startswith (style_name p) (lit "Heading").

(** The stripped texts of the paragraphs that are not blank, in order. *)
Definition nonblank_texts {txt : PyText} (paragraphs : list paragraph) : list str :=
  (fun p => strip (para_text p))
    <$> filter (fun p => truthy (strip (para_text p)) = true) paragraphs.

(** A document laid out in sections, each a heading paragraph followed by
    its body paragraphs; the paragraphs of such a document; and the units
    it is to give, numbered from [k]: one per section, labelled with the
    stripped heading, holding the body's texts one per line. *)
Definition section_paragraphs (sections : list (paragraph * list paragraph))
  : list paragraph :=
  sections ≫= (fun s => fst s :: snd s).

Fixpoint section_pages {txt : PyText} (k : Z)
    (sections : list (paragraph * list paragraph)) : list page :=
  match sections with
  | [] => []
  | (heading, body) :: rest =>
      Page k (join nl (nonblank_texts body)) (strip (para_text heading))
      :: section_pages (k + 1) rest
  end.

Definition well_formed_section {txt : PyText} (s : paragraph * list paragraph) : Prop :=
  is_heading (fst s) = true /\
  truthy (strip (para_text (fst s))) = true /\
  Forall (fun p => is_heading p = false) (snd s) /\
  nonblank_texts (snd s) <> [].

(** The pages of [_load_docx] once the chunk in progress is closed, as is
    done at a heading and after the loop. *)
Definition docx_close (st : docx_state) : list page :=
  if truthy (current_chunk st)
  then dx_pages st ++ [Page (chapter_idx st) (join nl (current_chunk st)) (chapter_label st)]
  else dx_pages st.

(** The text a page of a PDF contributes: its stripped text when that is
    not empty. *)
Definition pdf_page_text {txt : PyText} (r : outcome str) : option str :=
  match r with
  | Ok raw => if truthy (strip raw) then Some (strip raw) else None
  | Raised => None
  end.

Definition pdf_texts {txt : PyText} (doc : list (outcome str)) : list str :=
  omap pdf_page_text doc.

(** The items of an e-book that [_load_epub] keeps: documents whose
    stripped text has more than 100 characters. *)
Definition epub_keeps {txt : PyText} (item : epub_item) : bool :=
  is_document item && bool_decide (len (strip (soup_text item)) > 100).

Module Formats.
Import Toy.

(** A word-processor file without headings, one with two sections, one
    with headings only, and an e-book with a cover, a short item and two
    chapters, one of them titled. *)
Definition notes : list paragraph :=
  [Paragraph (lit "Normal") (lit " first line ");
   Paragraph (lit "Normal") (lit "   ");
   Paragraph (lit "Normal") (lit "second line")].

Definition report : list (paragraph * list paragraph) :=
  [(Paragraph (lit "Heading 1") (lit "Intro"),
    [Paragraph (lit "Normal") (lit "why"); Paragraph (lit "Normal") (lit "what")]);
   (Paragraph (lit "Heading 2") (lit " Methods "),
    [Paragraph (lit "Normal") (lit "how")])].

Definition book : list epub_item :=
  [EpubItem false (words_text 80) None;
   EpubItem true (lit "short") (Some (lit "Cover"));
   EpubItem true (words_text 60) (Some (lit " One "));
   EpubItem true (words_text 70) None].

Definition papers : toy :=
  new_world
    [(lit "notes.docx", DocxFile notes);
     (lit "report.DOC", DocxFile (section_paragraphs report));
     (lit "book.epub", EpubFile book);
     (lit "blank.txt", TxtFile (lit "  "));
     (lit "a.txt", TxtFile (words_text 650));
     (lit "b.pdf", PdfFile [Ok (lit "one"); Ok (lit "  "); Ok (lit " three ")])].

End Formats.

(** * Properties *)

(** ** Sequences *)

Lemma len_nonneg {A} (l : list A) : 0 <= len l.
Proof. unfold len. lia. Qed.

Lemma slice_bound_nonneg n i : 0 <= n -> 0 <= i -> slice_bound n i = Z.min i n.
Proof.
  intros Hn Hi. unfold slice_bound.
  destruct (Z.ltb_spec i 0); [lia | reflexivity].
Qed.

Lemma take_clip {A} (l : list A) (n m : nat) :
  Nat.min n (length l) = Nat.min m (length l) -> take n l = take m l.
Proof.
  intros Hmin.
  destruct (decide (n <= length l)%nat); destruct (decide (m <= length l)%nat).
  - f_equal. lia.
  - rewrite (take_ge l m) by lia. apply take_ge. lia.
  - rewrite (take_ge l n) by lia. symmetry. apply take_ge. lia.
  - rewrite !take_ge by lia. reflexivity.
Qed.

(** A slice with bounds that are not negative is a [take] of a [drop]. *)
Lemma py_slice_nonneg {A} (l : list A) (a b : Z) :
  0 <= a -> 0 <= b ->
  py_slice l a b = chars_between l (Z.to_nat a) (Z.to_nat b).
Proof.
  intros Ha Hb. unfold py_slice, chars_between.
  rewrite !slice_bound_nonneg by (auto using len_nonneg).
  unfold len.
  destruct (decide (Z.of_nat (length l) <= a)) as [Hge | Hlt].
  - rewrite !drop_ge by lia. by rewrite !take_nil.
  - replace (Z.to_nat (Z.min a (Z.of_nat (length l)))) with (Z.to_nat a) by lia.
    apply take_clip. rewrite length_drop. lia.
Qed.

(** ** Navigation *)

Section Navigation.
Context {C : Type}.
Implicit Types self : DocumentProcessor C.

Lemma page_count_set_current_page self c :
  page_count (set_current_page c self) = page_count self.
Proof. reflexivity. Qed.

Lemma next_page_cases self :
  (current_page self < page_count self - 1 /\
   next_page self = (set_current_page (current_page self + 1) self, true)) \/
  (~ current_page self < page_count self - 1 /\ next_page self = (self, false)).
Proof.
  unfold next_page, page_count. case_bool_decide; [left | right]; done.
Qed.

Lemma prev_page_cases self :
  (current_page self > 0 /\
   prev_page self = (set_current_page (current_page self - 1) self, true)) \/
  (~ current_page self > 0 /\ prev_page self = (self, false)).
Proof.
  unfold prev_page. case_bool_decide; [left | right]; done.
Qed.

Lemma go_to_page_cases self i :
  (0 <= i < page_count self /\ go_to_page self i = (set_current_page i self, true)) \/
  (~ 0 <= i < page_count self /\ go_to_page self i = (self, false)).
Proof.
  unfold go_to_page, page_count. case_bool_decide; [left | right]; done.
Qed.

(** C7: in a loaded document with N units and cursor c, 0 <= c < N,
    [next_page] returns true exactly when c < N-1 and then the cursor is
    c+1; [prev_page] returns true exactly when c > 0 and then the cursor is
    c-1; [go_to_page i] returns true exactly when 0 <= i < N and then the
    cursor is i.  When an operation returns false the object is unchanged.
    After each of the three the cursor is again within 0 <= cursor < N, and
    the pages are the same. *)
Theorem cursor_stays_in_bounds self (i : Z) :
  0 <= current_page self < page_count self ->
  (snd (next_page self) = bool_decide (current_page self < page_count self - 1) /\
   (snd (next_page self) = true ->
    current_page (fst (next_page self)) = current_page self + 1) /\
   (snd (next_page self) = false -> fst (next_page self) = self) /\
   pages (fst (next_page self)) = pages self /\
   0 <= current_page (fst (next_page self)) < page_count (fst (next_page self))) /\
  (snd (prev_page self) = bool_decide (current_page self > 0) /\
   (snd (prev_page self) = true ->
    current_page (fst (prev_page self)) = current_page self - 1) /\
   (snd (prev_page self) = false -> fst (prev_page self) = self) /\
   pages (fst (prev_page self)) = pages self /\
   0 <= current_page (fst (prev_page self)) < page_count (fst (prev_page self))) /\
  (snd (go_to_page self i) = bool_decide (0 <= i < page_count self) /\
   (snd (go_to_page self i) = true -> current_page (fst (go_to_page self i)) = i) /\
   (snd (go_to_page self i) = false -> fst (go_to_page self i) = self) /\
   pages (fst (go_to_page self i)) = pages self /\
   0 <= current_page (fst (go_to_page self i)) < page_count (fst (go_to_page self i))).
Proof.
  intros Hc. repeat split.
  all: try (destruct (next_page_cases self) as [[Hn ->] | [Hn ->]]; simpl;
            rewrite ?page_count_set_current_page;
            try case_bool_decide; first [done | lia]).
  all: try (destruct (prev_page_cases self) as [[Hn ->] | [Hn ->]]; simpl;
            rewrite ?page_count_set_current_page;
            try case_bool_decide; first [done | lia]).
  all: destruct (go_to_page_cases self i) as [[Hn ->] | [Hn ->]]; simpl;
       rewrite ?page_count_set_current_page;
       try case_bool_decide; first [done | lia].
Qed.

(** C10: [get_chapter_text n] is [get_page (n - 1)]: the text of the unit at
    position n-1 when 0 <= n-1 < page_count, and the empty string
    otherwise. *)
Theorem get_chapter_text_is_get_page self (n : Z) :
  get_chapter_text self n = get_page self (n - 1) /\
  (0 <= n - 1 < page_count self ->
   exists p, pages self !! Z.to_nat (n - 1) = Some p /\ get_chapter_text self n = text p) /\
  (~ 0 <= n - 1 < page_count self -> get_chapter_text self n = []).
Proof.
  unfold get_chapter_text, get_page, page_count, text_at. split; [reflexivity |].
  split; intros Hn.
  - rewrite bool_decide_eq_true_2 by done.
    destruct (lookup_lt_is_Some_2 (pages self) (Z.to_nat (n - 1))) as [p Hp].
    { unfold len in Hn. lia. }
    exists p. by rewrite Hp.
  - by rewrite bool_decide_eq_false_2.
Qed.

End Navigation.

(** Three pages with the cursor on the second: [next_page] moves to the
    third, and [go_to_page 7] is refused. *)
Lemma cursor_stays_in_bounds_witness :
  let self : DocumentProcessor unit :=
    mkDP [Page 0 (lit "a") (lit "Page 1"); Page 1 (lit "b") (lit "Page 2");
          Page 2 (lit "c") (lit "Page 3")] 1 None None [] [] None in
  next_page self = (set_current_page 2 self, true) /\
  snd (go_to_page self 7) = bool_decide (0 <= 7 < page_count self).
Proof.
  intros self.
  pose proof (cursor_stays_in_bounds self 7 ltac:(vm_compute; split; congruence)) as Hw.
  split; [reflexivity | apply Hw].
Defined.

(** ** Lexical search *)

Lemma startswith_spec (s p : str) :
  startswith s p = true <-> exists post, s = p ++ post.
Proof.
  revert s. induction p as [| c p IH]; intros s; simpl.
  - split; [intros _; by exists s | done].
  - destruct s as [| d s].
    + split; [done | intros [post Hpost]; discriminate].
    + destruct (decide (c = d)) as [-> | Hne].
      * rewrite IH. split; intros [post Hpost]; exists post; simpl in *; congruence.
      * split; [done | intros [post Hpost]; simpl in Hpost; congruence].
Qed.

Lemma occurs_at_0 (t q : str) : occurs_at t q 0 <-> startswith t q = true.
Proof.
  rewrite startswith_spec. split.
  - intros (pre & post & -> & Hpre). destruct pre; [by exists post | done].
  - intros [post ->]. by exists [], post.
Qed.

Lemma occurs_at_S (c : ascii) (t q : str) (n : nat) :
  occurs_at (c :: t) q (S n) <-> occurs_at t q n.
Proof.
  split.
  - intros (pre & post & Ht & Hpre). destruct pre as [| d pre]; [done |].
    simpl in Ht, Hpre. exists pre, post. split; [congruence | lia].
  - intros (pre & post & -> & Hpre). exists (c :: pre), post. simpl. split; [done | lia].
Qed.

Lemma occurs_at_nil (q : str) (n : nat) : occurs_at [] q n -> n = 0%nat /\ q = [].
Proof.
  intros (pre & post & Ht & Hpre). symmetry in Ht.
  apply app_eq_nil in Ht as [-> Ht]. apply app_eq_nil in Ht as [-> _]. done.
Qed.

(** [find_from] returns [-1] when the query does not occur, and otherwise
    the start offset plus the offset of the first occurrence. *)
Lemma find_from_spec (t q : str) (i : Z) :
  (find_from t q i = -1 /\ ~ contains t q) \/
  (exists n, find_from t q i = i + Z.of_nat n /\ first_occurrence t q n).
Proof.
  revert i. induction t as [| c t IH]; intros i.
  - simpl. destruct (startswith [] q) eqn:Hsw.
    + right. exists 0%nat. split; [lia |]. split; [by apply occurs_at_0 | lia].
    + left. split; [done |]. intros [n Hn].
      destruct (occurs_at_nil _ _ Hn) as [-> ->]. done.
  - cbn [find_from]. destruct (startswith (c :: t) q) eqn:Hsw.
    + right. exists 0%nat. split; [lia |]. split; [by apply occurs_at_0 | lia].
    + destruct (IH (i + 1)) as [[Hf Hno] | (n & Hf & Hocc & Hmin)].
      * left. split; [done |]. intros [[| m] Hm].
        -- apply occurs_at_0 in Hm. congruence.
        -- apply occurs_at_S in Hm. apply Hno. by exists m.
      * right. exists (S n). split; [lia |]. split; [by apply occurs_at_S |].
        intros [| m] Hm.
        -- apply occurs_at_0 in Hm. congruence.
        -- apply occurs_at_S in Hm. apply Hmin in Hm. lia.
Qed.

Lemma find_spec (t q : str) :
  (find t q = -1 /\ ~ contains t q) \/
  (exists n, find t q = Z.of_nat n /\ first_occurrence t q n).
Proof.
  unfold find. destruct (find_from_spec t q 0) as [? | (n & Hf & Hn)]; [by left |].
  right. exists n. split; [lia | done].
Qed.

Section SearchProperties.
Context {txt : PyText} {C : Type}.

Lemma search_page_spec (query : str) (p : page) :
  (search_page (lower query) p = None /\ ~ contains (lower (text p)) (lower query)) \/
  (exists pos,
     first_occurrence (lower (text p)) (lower query) pos /\
     search_page (lower query) p =
       Some (Match (index p) (label p) (chars_between (text p) (pos - 60) (pos + 120)))).
Proof.
  unfold search_page.
  destruct (find_spec (lower (text p)) (lower query)) as [[-> Hno] | (pos & -> & Hpos)].
  - left. by rewrite bool_decide_eq_false_2 by lia.
  - right. exists pos. split; [done |].
    rewrite bool_decide_eq_true_2 by lia.
    rewrite py_slice_nonneg by lia. do 3 f_equal; lia.
Qed.

Lemma search_meets_spec (self : DocumentProcessor C) (query : str) :
  search_spec query (pages self) (search self query).
Proof.
  unfold search. induction (pages self) as [| p ps IH]; [constructor |].
  cbn [omap list_omap].
  destruct (search_page_spec query p) as [[-> Hno] | (pos & Hpos & ->)].
  - by apply search_spec_skip.
  - by apply search_spec_hit.
Qed.

(** [search_spec] admits one answer only, so [search] returns exactly it. *)
Lemma search_spec_unique (query : str) (ps : list page) (ms ms' : list search_match) :
  search_spec query ps ms -> search_spec query ps ms' -> ms = ms'.
Proof.
  intros Hms. revert ms'. induction Hms as [| p ps ms Hno _ IH | p ps ms pos Hpos _ IH];
    intros ms' Hms'; inversion Hms' as [| ? ? ? Hno' Hrest | ? ? ? pos' Hpos' Hrest]; subst.
  - done.
  - by apply IH.
  - destruct Hno. exists pos'. apply Hpos'.
  - destruct Hno'. exists pos. apply Hpos.
  - f_equal; [| by apply IH].
    assert (pos = pos') as ->; [| done].
    destruct Hpos as [Ho Hm], Hpos' as [Ho' Hm'].
    apply Hm in Ho'. apply Hm' in Ho. lia.
Qed.

Lemma chars_between_all {A} (t : list A) (a b : nat) :
  a = 0%nat -> (length t <= b)%nat -> chars_between t a b = t.
Proof.
  intros -> Hb. unfold chars_between. rewrite drop_0. apply take_ge. lia.
Qed.

End SearchProperties.

(** C9 (amended): [search query] returns, in unit order, one match for each unit whose
    lowered text contains the lowered query and none for the others; the
    snippet of a match is the unit's original text from character
    max(0, pos-60) up to pos+120, where pos is the first occurrence in the
    lowered text; that is the answer and no other.  When the unit's text
    ends within 120 characters of pos and pos is at most 60, the snippet is
    the whole text; searching "hello" in the unit "say hello world" gives
    the one snippet "say hello world". *)
Theorem search_returns_first_occurrence_snippets :
  (forall (T : PyText) (C : Type) (self : DocumentProcessor C) (query : str),
     search_spec query (pages self) (search self query) /\
     (forall ms, search_spec query (pages self) ms -> ms = search self query) /\
     length (search self query) =
       length (filter (fun p => find (lower (text p)) (lower query) <> -1) (pages self))) /\
  (forall (t : str) (pos : nat),
     (pos <= 60)%nat -> (length t <= pos + 120)%nat ->
     chars_between t (pos - 60) (pos + 120) = t) /\
  search (txt := Toy.ascii_text) (Collection := unit)
    (mkDP [Page 0 (lit "say hello world") (lit "Section 1")] 0 None None [] [] None)
    (lit "hello")
  = [Match 0 (lit "Section 1") (lit "say hello world")].
Proof.
  split; [| split].
  - intros T C self query. split; [apply search_meets_spec |]. split.
    + intros ms Hms. eapply search_spec_unique; [exact Hms | apply search_meets_spec].
    + unfold search. induction (pages self) as [| p ps IH]; [done |].
      cbn [omap list_omap]. rewrite filter_cons. unfold search_page at 1.
      case_bool_decide; rewrite decide_bool_decide; case_bool_decide; try done.
      simpl. by rewrite IH.
  - intros t pos Hpos Hlen. apply chars_between_all; lia.
  - reflexivity.
Qed.

(** ** Ranges and word windows *)

Lemma ceil_div_nonpos (a b : Z) : 0 < b -> a <= 0 -> ceil_div a b <= 0.
Proof.
  intros Hb Ha. unfold ceil_div.
  assert ((a + b - 1) / b < 1); [| lia].
  apply Z.div_lt_upper_bound; lia.
Qed.

Lemma ceil_div_step (a b : Z) : 0 < b -> 0 < a -> ceil_div a b = 1 + ceil_div (a - b) b /\ 0 <= ceil_div (a - b) b.
Proof.
  intros Hb Ha. unfold ceil_div. split.
  - replace (a + b - 1) with ((a - b + b - 1) + 1 * b) by lia.
    rewrite Z.div_add by lia. lia.
  - apply Z.div_pos; lia.
Qed.

(** [ceil_div a b] is the least [n] with [a <= n * b]. *)
Lemma ceil_div_spec (a b : Z) :
  0 < b -> (ceil_div a b - 1) * b < a <= ceil_div a b * b.
Proof.
  intros Hb. unfold ceil_div.
  pose proof (Z.div_mod (a + b - 1) b ltac:(lia)) as Hdm.
  pose proof (Z.mod_pos_bound (a + b - 1) b Hb) as Hm.
  nia.
Qed.

(** The loop of a [range] with a positive step runs [ceil_div (stop - i)
    step] times when it has that much fuel, and [stop - i] is enough. *)
Lemma range_loop_spec (fuel : nat) (i stop step : Z) :
  0 < step -> stop - i <= Z.of_nat fuel ->
  range_loop fuel i stop step =
    (fun j : nat => i + Z.of_nat j * step) <$> seq 0 (Z.to_nat (ceil_div (stop - i) step)).
Proof.
  intros Hstep. revert i. induction fuel as [| fuel IH]; intros i Hfuel.
  - simpl. pose proof (ceil_div_nonpos (stop - i) step Hstep ltac:(lia)).
    by replace (Z.to_nat (ceil_div (stop - i) step)) with 0%nat by lia.
  - simpl. destruct (Z.ltb_spec i stop) as [Hlt | Hge].
    + destruct (ceil_div_step (stop - i) step Hstep ltac:(lia)) as [Hc Hpos].
      rewrite Hc.
      replace (Z.to_nat (1 + ceil_div (stop - i - step) step))
        with (S (Z.to_nat (ceil_div (stop - i - step) step))) by lia.
      cbn [seq fmap list_fmap]. f_equal; [lia |].
      rewrite IH by lia. rewrite <- fmap_S_seq, <- list_fmap_compose.
      replace (stop - (i + step)) with (stop - i - step) by lia.
      apply list_fmap_ext. intros _ j _. simpl. lia.
    + pose proof (ceil_div_nonpos (stop - i) step Hstep ltac:(lia)).
      by replace (Z.to_nat (ceil_div (stop - i) step)) with 0%nat by lia.
Qed.

Lemma py_range_spec (n step : Z) :
  0 < step ->
  py_range 0 n step = (fun j : nat => Z.of_nat j * step) <$> seq 0 (Z.to_nat (ceil_div n step)).
Proof.
  intros Hstep. unfold py_range. rewrite range_loop_spec by lia.
  rewrite Z.sub_0_r. apply list_fmap_ext. intros _ j _. lia.
Qed.

Lemma page_windows_spec (words : list str) :
  page_windows words =
    nth_window words <$> seq 0 (Z.to_nat (ceil_div (len words) (chunk_size - overlap))).
Proof.
  unfold page_windows. rewrite py_range_spec by (by vm_compute).
  rewrite <- list_fmap_compose. apply list_fmap_ext. intros _ j _. simpl.
  rewrite py_slice_nonneg by (unfold chunk_size, overlap; lia).
  unfold nth_window, stride, chunk_size, overlap. f_equal; lia.
Qed.

Lemma page_windows_length (words : list str) :
  len (page_windows words) = Z.max 0 (ceil_div (len words) (chunk_size - overlap)).
Proof.
  rewrite page_windows_spec. unfold len at 1. rewrite length_fmap, length_seq. lia.
Qed.

Lemma page_windows_lookup (words : list str) (i : nat) :
  Z.of_nat i < ceil_div (len words) (chunk_size - overlap) ->
  page_windows words !! i = Some (nth_window words i).
Proof.
  intros Hi. rewrite page_windows_spec, list_lookup_fmap, lookup_seq_lt by lia.
  reflexivity.
Qed.

Lemma nth_window_length (words : list str) (i : nat) :
  length (nth_window words i)
  = Nat.min (Z.to_nat chunk_size) (length words - i * stride).
Proof.
  unfold nth_window, chars_between. rewrite length_take, length_drop. lia.
Qed.

Lemma nth_window_lookup (words : list str) (i k : nat) :
  (k < Z.to_nat chunk_size)%nat ->
  nth_window words i !! k = words !! (i * stride + k)%nat.
Proof.
  intros Hk. unfold nth_window, chars_between.
  rewrite lookup_take_lt by lia. apply lookup_drop.
Qed.

(** The tail of a window past one stride is the head of the next window. *)
Lemma nth_window_overlap (words : list str) (i : nat) :
  drop stride (nth_window words i)
  = take (length (nth_window words i) - stride) (nth_window words (S i)).
Proof.
  apply list_eq. intros k.
  rewrite lookup_drop.
  destruct (decide (k < length (nth_window words i) - stride)%nat) as [Hk | Hk].
  - rewrite lookup_take_lt by done.
    pose proof (nth_window_length words i) as Hlen.
    rewrite !nth_window_lookup by lia. f_equal. lia.
  - rewrite lookup_take_ge by lia. apply lookup_ge_None. lia.
Qed.

Lemma stride_eq : stride = 250%nat.
Proof. reflexivity. Qed.

Section Words.
Context {txt : PyText}.

Lemma split_from_word (cur w s : str) :
  Forall (fun c => isspace c = false) w ->
  split_from cur (w ++ s) = split_from (cur ++ w) s.
Proof.
  intros Hw. revert cur. induction Hw as [| c w Hc _ IH]; intros cur.
  - by rewrite app_nil_r.
  - simpl. rewrite Hc, IH. by rewrite <- app_assoc.
Qed.

(** Joining words with a space and splitting again gives the words back. *)
Lemma split_join (ws : list str) :
  isspace " "%char = true -> Forall is_word ws -> split (join (lit " ") ws) = ws.
Proof.
  intros Hsp Hws. unfold split. induction Hws as [| w ws [Hne Hw] Hrest IH]; [done |].
  destruct ws as [| w' ws].
  - simpl. rewrite <- (app_nil_r w) at 1. rewrite split_from_word by done.
    simpl. destruct w; [by destruct Hne | done].
  - change (join (lit " ") (w :: w' :: ws))
      with (w ++ " "%char :: join (lit " ") (w' :: ws)).
    rewrite split_from_word by done. rewrite app_nil_l.
    cbn [split_from]. rewrite Hsp, IH.
    destruct w; [by destruct Hne | done].
Qed.

Lemma split_from_words (cur s : str) :
  Forall (fun c => isspace c = false) cur -> Forall is_word (split_from cur s).
Proof.
  revert cur. induction s as [| c s IH]; intros cur Hcur.
  - simpl. destruct cur as [| d cur]; [apply Forall_nil_2 |].
    apply Forall_cons_2; [by split | apply Forall_nil_2].
  - simpl. destruct (isspace c) eqn:Hc.
    + destruct cur as [| d cur]; [by apply IH |].
      apply Forall_cons_2; [by split | by apply IH].
    + apply IH. apply Forall_app. split; [done |].
      apply Forall_cons_2; [done | apply Forall_nil_2].
Qed.

Lemma split_words (s : str) : Forall is_word (split s).
Proof. by apply split_from_words. Qed.

Lemma nth_window_words (words : list str) (i : nat) :
  Forall is_word words -> Forall is_word (nth_window words i).
Proof.
  intros Hw. unfold nth_window, chars_between. by apply Forall_take, Forall_drop.
Qed.

End Words.

(** C1 (amended): for a unit whose text splits into M > 0 words, the
    chunker of the index (window 300, overlap 50, stride 250) produces
    exactly ceil(M / 250) chunks; chunk i is the words at offsets i*250 up
    to i*250 + 300 (as far as the unit has words) joined by a space, it
    splits back into these words, and its first word is the unit's word at
    offset i*250.  The tail of chunk i past its first 250 words is the head
    of chunk i+1: they share between 1 and 50 words, and exactly 50 when
    chunk i is a full window.  Every word of the unit at offset j is in
    chunk j / 250, at offset j mod 250, so the chunks leave no gap. *)
Theorem index_chunks_of_a_unit {txt : PyText} (text : str) :
  isspace " "%char = true ->
  0 < len (split text) ->
  len (page_chunks (split text)) = ceil_div (len (split text)) (chunk_size - overlap) /\
  (forall i : nat,
     Z.of_nat i < ceil_div (len (split text)) (chunk_size - overlap) ->
     page_chunks (split text) !! i = Some (join (lit " ") (nth_window (split text) i)) /\
     split (join (lit " ") (nth_window (split text) i)) = nth_window (split text) i /\
     is_Some (split text !! (i * stride)%nat) /\
     nth_window (split text) i !! 0%nat = split text !! (i * stride)%nat) /\
  (forall i : nat,
     Z.of_nat (S i) < ceil_div (len (split text)) (chunk_size - overlap) ->
     drop stride (nth_window (split text) i)
     = take (length (nth_window (split text) i) - stride) (nth_window (split text) (S i)) /\
     1 <= Z.of_nat (length (nth_window (split text) i) - stride) <= overlap /\
     (len (nth_window (split text) i) = chunk_size ->
      Z.of_nat (length (nth_window (split text) i) - stride) = overlap)) /\
  (forall j : nat,
     (j < length (split text))%nat ->
     Z.of_nat (j / stride) < ceil_div (len (split text)) (chunk_size - overlap) /\
     nth_window (split text) (j / stride) !! (j mod stride)%nat = split text !! j).
Proof.
  intros Hsp HM.
  pose proof (split_words text) as Hwords.
  set (words := split text) in *.
  pose proof (ceil_div_spec (len words) (chunk_size - overlap) ltac:(by vm_compute)) as Hceil.
  pose proof stride_eq as Hstride.
  unfold chunk_size, overlap, len in *.
  split; [| split; [| split]].
  - unfold page_chunks. rewrite length_fmap.
    pose proof (page_windows_length words) as Hlen.
    unfold chunk_size, overlap, len in Hlen. lia.
  - intros i Hi. split; [| split; [| split]].
    + unfold page_chunks. rewrite list_lookup_fmap, page_windows_lookup by done. done.
    + apply split_join; [done | by apply nth_window_words].
    + apply lookup_lt_is_Some_2. lia.
    + rewrite nth_window_lookup by (vm_compute; lia). f_equal. lia.
  - intros i Hi. split; [apply nth_window_overlap |].
    pose proof (nth_window_length words i) as Hlen.
    unfold chunk_size, len in *. lia.
  - intros j Hj.
    pose proof (Nat.div_mod_eq j stride) as Hdm.
    pose proof (Nat.mod_upper_bound j stride ltac:(lia)) as Hmod.
    split; [nia |].
    rewrite nth_window_lookup by (unfold chunk_size; lia). f_equal. lia.
Qed.

(** C1, as stated, fails at a unit of 300 words: the chunker produces two
    chunks (the second is the last 50 words), where ceil((300 - 50) / (300 -
    50)) is one; and at a unit of 251 words the two chunks share one word,
    not 50. *)
Lemma chunk_count_of_300_words :
  len (split (txt := Toy.ascii_text) (Toy.words_text 300)) = 300 /\
  300 > overlap /\
  len (page_chunks (split (txt := Toy.ascii_text) (Toy.words_text 300))) = 2 /\
  ceil_div (300 - overlap) (chunk_size - overlap) = 1 /\
  length <$> page_windows (split (txt := Toy.ascii_text) (Toy.words_text 251))
  = [251%nat; 1%nat].
Proof. vm_compute. repeat split. Qed.

(** A unit of 650 words. *)
Lemma index_chunks_of_a_unit_witness :
  isspace (PyText := Toy.ascii_text) " "%char = true /\
  0 < len (split (txt := Toy.ascii_text) (Toy.words_text 650)) /\
  len (page_chunks (split (txt := Toy.ascii_text) (Toy.words_text 650)))
  = ceil_div (len (split (txt := Toy.ascii_text) (Toy.words_text 650))) (chunk_size - overlap).
Proof.
  split; [reflexivity |]. split; [reflexivity |].
  exact (proj1 (index_chunks_of_a_unit (txt := Toy.ascii_text) (Toy.words_text 650)
                  eq_refl eq_refl)).
Defined.

(** ** Running the methods *)

Section Runs.
Context {txt : PyText} {wld : World}.
Local Open Scope py_scope.
Implicit Types (s : St) (self : DocumentProcessor Collection) (w : world).

Lemma bind_ok {A B} (m : M A) (k : A -> M B) s s' a :
  m s = (s', Ok a) -> bind m k s = k a s'.
Proof. intros Hm. unfold bind. by rewrite Hm. Qed.

Lemma bind_raised {A B} (m : M A) (k : A -> M B) s s' :
  m s = (s', Raised) -> bind m k s = (s', Raised).
Proof. intros Hm. unfold bind. by rewrite Hm. Qed.

Lemma try_ok {A} (body handler : M A) s s' a :
  body s = (s', Ok a) -> try_except body handler s = (s', Ok a).
Proof. intros Hm. unfold try_except. by rewrite Hm. Qed.

Lemma try_raised {A} (body handler : M A) s s' :
  body s = (s', Raised) -> try_except body handler s = handler s'.
Proof. intros Hm. unfold try_except. by rewrite Hm. Qed.

(** Drawing identifiers never raises and leaves the object alone. *)
Lemma draw_ids_spec (n : nat) w self :
  exists w' ids, draw_ids n (w, self) = ((w', self), Ok ids) /\ length ids = n.
Proof.
  revert w. induction n as [| n IH]; intros w.
  - by exists w, [].
  - simpl. unfold bind at 1, call at 1. simpl.
    destruct (uuid4 w) as [w1 u] eqn:Hu.
    destruct (IH w1) as (w2 & ids & Hids & Hlen).
    exists w2, (u :: ids). unfold bind. rewrite Hids. simpl. by rewrite Hlen.
Qed.

(** The body of the index build leaves the pages and the other fields
    alone: only the collection handle can change. *)
Lemma build_body_spec w self :
  exists w' oc r, build_body (w, self) = ((w', set_collection oc self), r) /\
                  (r = Ok tt -> is_Some oc).
Proof.
  unfold build_body. unfold bind at 1, get_self at 1. simpl.
  unfold bind at 1, try_except at 1, call at 1. simpl.
  destruct (delete_collection w (collection_name self)) as [w1 [[] |]] eqn:Hdel; simpl.
  all: unfold bind at 1, call at 1; simpl.
  all: destruct (create_collection w1 (collection_name self)) as [w2 [c |]] eqn:Hcre; simpl.
  all: try (exists w2, (collection self), Raised; split; [by destruct self | done]).
  all: unfold bind at 1, modify at 1; simpl.
  all: unfold bind at 1.
  all: destruct (draw_ids_spec (length (index_docs (pages self))) w2
                   (set_collection (Some c) self)) as (w3 & ids & -> & _).
  all: destruct (truthy (index_docs (pages self))).
  all: try (exists w3, (Some c), (Ok tt); split; [done | by eexists]).
  all: unfold call; simpl.
  all: destruct (collection_add w3 c _ _ ids) as [w4 r] eqn:Hadd.
  all: exists w4, (Some c), r; split; [done | by eexists].
Qed.

(** [_build_vector_index] always returns; it keeps everything but the
    collection handle, which is [None] when the body raised. *)
Lemma build_vector_index_spec w self :
  exists w' oc,
    _build_vector_index (w, self) = ((w', set_collection oc self), Ok tt) /\
    (snd (build_body (w, self)) = Raised -> oc = None) /\
    (snd (build_body (w, self)) = Ok tt -> is_Some oc).
Proof.
  unfold _build_vector_index, try_except.
  destruct (build_body_spec w self) as (w' & oc & r & -> & Hoc).
  destruct r as [[] |]; simpl.
  - exists w', oc. split; [done |]. split; [done | auto].
  - exists w', None. split; [by destruct self |]. split; [done | done].
Qed.

(** [load] after its opening assignments. *)
Lemma load_unfold (filepath : str) w self :
  load filepath (w, self) =
  try_except
    (supported <- load_dispatch (lower (snd (os_path_splitext filepath))) filepath ;;
     if supported : bool
     then
       self <- get_self ;;
       if bool_decide (len (pages self) > 0)
       then _build_vector_index ;; ret true
       else ret false
     else ret false)
    (ret false) (w, load_reset filepath self).
Proof. reflexivity. Qed.

(** When [load] returns true, a loader ran and produced the pages, which
    are not empty, and the index build changed the collection handle
    only. *)
Lemma load_true (filepath : str) w self s' :
  load filepath (w, self) = (s', Ok true) ->
  exists w1 self1 oc,
    load_dispatch (lower (snd (os_path_splitext filepath))) filepath
      (w, load_reset filepath self) = ((w1, self1), Ok true) /\
    pages self1 <> [] /\
    snd s' = set_collection oc self1.
Proof.
  rewrite load_unfold. unfold try_except, bind at 1.
  destruct (load_dispatch _ filepath _) as [[w1 self1] [[] |]] eqn:Hd; simpl;
    [| intros [=] | intros [=]].
  unfold bind at 1, get_self at 1. simpl.
  case_bool_decide as Hlen; [| intros [=]].
  unfold bind.
  destruct (build_vector_index_spec w1 self1) as (w2 & oc & -> & _).
  simpl. intros [= <-]. exists w1, self1, oc.
  split; [done |]. split; [| done].
  intros Hnil. rewrite Hnil in Hlen. unfold len in Hlen. simpl in Hlen. lia.
Qed.

End Runs.

(** ** The [index] fields of the units *)

Lemma contiguous_nil : contiguous [].
Proof. intros j p Hj. by rewrite lookup_nil in Hj. Qed.

Lemma contiguous_snoc (pgs : list page) (p : page) :
  contiguous pgs -> index p = len pgs -> contiguous (pgs ++ [p]).
Proof.
  intros Hc Hp j q Hj. apply lookup_app_Some in Hj as [Hj | [Hge Hj]].
  - by apply Hc.
  - apply list_lookup_singleton_Some in Hj as [Hj ->].
    rewrite Hp. unfold len. lia.
Qed.

Section Units.
Context {txt : PyText}.

(** Windows of [chunk_size] words: the page made at loop value
    [j * chunk_size] has index [j]. *)
Lemma window_pages_contiguous (chunk_size : Z) (words : list str) :
  0 < chunk_size -> contiguous (window_pages chunk_size words []).
Proof.
  intros Hcs j p. unfold window_pages. rewrite app_nil_l.
  rewrite py_range_spec by done. rewrite <- list_fmap_compose, list_lookup_fmap.
  intros Hj. apply fmap_Some in Hj as (k & Hk & ->).
  apply lookup_seq in Hk as [-> _]. simpl. apply Z.div_mul. lia.
Qed.

Lemma docx_step_inv (st : docx_state) (para : paragraph) :
  docx_inv st -> docx_inv (docx_step st para).
Proof.
  intros [Hc Hi]. unfold docx_step.
  destruct (startswith _ _).
  - destruct (truthy (current_chunk st)); unfold docx_inv; simpl; [| by split].
    split; [by apply contiguous_snoc |].
    unfold len in *. rewrite length_app. simpl. lia.
  - destruct (truthy (strip _)); by split.
Qed.

Lemma docx_fold_inv (paragraphs : list paragraph) (st : docx_state) :
  docx_inv st -> docx_inv (foldl docx_step st paragraphs).
Proof.
  revert st. induction paragraphs as [| para ps IH]; intros st Hst; [done |].
  simpl. by apply IH, docx_step_inv.
Qed.

Lemma docx_pages_contiguous (paragraphs : list paragraph) :
  contiguous (docx_pages paragraphs []).
Proof.
  unfold docx_pages.
  destruct (docx_fold_inv paragraphs (DocxState [] [] 0 (lit "Section 1")))
    as [Hc Hi]; [by split; [apply contiguous_nil |] |].
  set (st := foldl docx_step _ paragraphs) in *.
  set (pgs1 := if truthy (current_chunk st) then _ else _).
  assert (contiguous pgs1) as Hpgs1.
  { unfold pgs1. destruct (truthy (current_chunk st)); [| done].
    by apply contiguous_snoc. }
  destruct pgs1 as [| p rest] eqn:Hp; simpl; [| done].
  by apply window_pages_contiguous.
Qed.

Lemma epub_step_inv (st : list page * Z) (item : epub_item) :
  contiguous (fst st) /\ snd st = len (fst st) ->
  contiguous (fst (epub_step st item)) /\
  snd (epub_step st item) = len (fst (epub_step st item)).
Proof.
  destruct st as [pgs idx]. simpl. intros [Hc ->].
  destruct (is_document item); [| done].
  case_bool_decide; [| done]. simpl.
  split; [by apply contiguous_snoc |].
  unfold len. rewrite length_app. simpl. lia.
Qed.

Lemma epub_pages_contiguous (items : list epub_item) :
  contiguous (epub_pages items []).
Proof.
  unfold epub_pages.
  assert (forall st, contiguous (fst st) /\ snd st = len (fst st) ->
                     contiguous (fst (foldl epub_step st items))) as Hfold.
  { induction items as [| item items IH]; intros st Hst; [apply Hst |].
    simpl. by apply IH, epub_step_inv. }
  apply Hfold. split; [apply contiguous_nil | done].
Qed.

Lemma pdf_inv_snoc (doc : list (outcome str)) (i : Z) (pgs : list page) (p : page) :
  pdf_inv doc i pgs -> index p = i -> from_pdf_page doc p ->
  pdf_inv doc (i + 1) (pgs ++ [p]).
Proof.
  intros (Hinc & Hpos & Hfrom) Hp Hdoc. split; [| split].
  - intros j k q r Hjk Hq Hr.
    apply lookup_app_Some in Hr as [Hr | [Hge Hr]].
    + rewrite lookup_app_l in Hq by (apply lookup_lt_Some in Hr; lia).
      by eapply Hinc.
    + apply list_lookup_singleton_Some in Hr as [Hk ->].
      rewrite lookup_app_l in Hq by lia.
      apply Hpos in Hq. lia.
  - intros j q Hq. apply lookup_app_Some in Hq as [Hq | [Hge Hq]].
    + apply Hpos in Hq. lia.
    + apply list_lookup_singleton_Some in Hq as [Hj ->].
      assert (Z.of_nat (length pgs) <= i); [| lia].
      destruct pgs as [| p0 pgs0] eqn:Hpgs using rev_ind; [simpl; destruct Hdoc; lia |].
      specialize (Hpos (length pgs0) p0).
      rewrite lookup_app_r, Nat.sub_diag in Hpos by lia.
      specialize (Hpos eq_refl). rewrite length_app. simpl. lia.
  - apply Forall_app. split; [done |]. by apply Forall_cons_2.
Qed.

Lemma pdf_inv_skip (doc : list (outcome str)) (i : Z) (pgs : list page) :
  pdf_inv doc i pgs -> pdf_inv doc (i + 1) pgs.
Proof.
  intros (Hinc & Hpos & Hfrom). split; [done |]. split; [| done].
  intros j p Hp. apply Hpos in Hp. lia.
Qed.

Lemma pdf_loop_inv (doc rest : list (outcome str)) (seen : list (outcome str))
    (pgs : list page) :
  doc = seen ++ rest ->
  pdf_inv doc (len seen) pgs ->
  exists i, pdf_inv doc i (fst (pdf_loop (len seen) rest pgs)).
Proof.
  revert seen pgs. induction rest as [| [raw |] rest IH]; intros seen pgs Hdoc Hinv.
  - by exists (len seen).
  - cbn [pdf_loop].
    assert (len (seen ++ [Ok raw]) = len seen + 1) as Hlen.
    { unfold len. rewrite length_app. simpl. lia. }
    rewrite <- Hlen.
    destruct (truthy (strip raw)) eqn:Htext.
    + apply IH; [by rewrite <- app_assoc |].
      rewrite Hlen. apply pdf_inv_snoc; [done | done |].
      split; [apply len_nonneg |]. exists raw. simpl. split; [| done].
      rewrite Hdoc. unfold len. rewrite Nat2Z.id.
      rewrite lookup_app_r, Nat.sub_diag by lia. done.
    + apply IH; [by rewrite <- app_assoc |].
      rewrite Hlen. by apply pdf_inv_skip.
  - by exists (len seen).
Qed.

(** With no blank page in the file the PDF units do count up from 0. *)
Lemma pdf_loop_contiguous (rest : list (outcome str)) (i : Z) (pgs : list page) :
  Forall (fun r => exists raw, r = Ok raw /\ truthy (strip raw) = true) rest ->
  contiguous pgs -> i = len pgs ->
  contiguous (fst (pdf_loop i rest pgs)).
Proof.
  intros Hrest. revert i pgs. induction Hrest as [| r rest (raw & -> & Hraw) _ IH];
    intros i pgs Hc Hi; [done |].
  cbn [pdf_loop]. rewrite Hraw. apply IH.
  - by apply contiguous_snoc.
  - unfold len in *. rewrite length_app. simpl. lia.
Qed.

End Units.

Section LoadedUnits.
Context {txt : PyText} {wld : World}.
Implicit Types (self : DocumentProcessor Collection) (w : world).

(** Which loader ran, and the pages it left, when the dispatch of [load]
    succeeds. *)
Lemma load_dispatch_true (ext filepath : str) w self w1 self1 :
  load_dispatch ext filepath (w, self) = ((w1, self1), Ok true) ->
  (ext = lit ".pdf" /\
   exists doc, fitz_open w filepath = Ok doc /\
               pdf_loop 0 doc (pages self) = (pages self1, Ok tt)) \/
  (ext <> lit ".pdf" /\
   ((exists paragraphs, docx_Document w filepath = Ok paragraphs /\
                        pages self1 = docx_pages paragraphs (pages self)) \/
    (exists items, epub_read_epub w filepath = Ok items /\
                   pages self1 = epub_pages items (pages self)) \/
    (exists content, open_read w filepath = Ok content /\
                     pages self1 = window_pages 600 (split content) (pages self)))).
Proof.
  unfold load_dispatch.
  destruct (decide (ext = lit ".pdf")) as [Hpdf | Hpdf].
  { intros Hrun. left. split; [done |]. revert Hrun.
    unfold _load_pdf, bind, ask, get_self, modify, of_outcome, ret. simpl.
    destruct (fitz_open w filepath) as [doc |] eqn:Hopen; [| intros [=]].
    destruct (pdf_loop 0 doc (pages self)) as [pgs [[] |]] eqn:Hloop; simpl;
      [| intros [=]].
    intros [= <- <-]. exists doc. by rewrite Hloop. }
  intros Hrun. right. split; [done |]. revert Hrun.
  destruct (decide (ext = lit ".docx" \/ ext = lit ".doc")) as [Hdocx | Hdocx].
  { unfold _load_docx, bind, ask, modify, ret. simpl.
    destruct (docx_Document w filepath) as [paragraphs |]; [| intros [=]].
    simpl. intros [= <- <-]. left. by exists paragraphs. }
  destruct (decide (ext = lit ".epub")) as [Hepub | Hepub].
  { unfold _load_epub, bind, ask, modify, ret. simpl.
    destruct (epub_read_epub w filepath) as [items |]; [| intros [=]].
    simpl. intros [= <- <-]. right. left. by exists items. }
  destruct (decide (ext = lit ".txt")) as [Htxt | Htxt]; [| intros [=]].
  unfold _load_txt, bind, ask, modify, ret. simpl.
  destruct (open_read w filepath) as [content |]; [| intros [=]].
  simpl. intros [= <- <-]. right. right. by exists content.
Qed.

(** What the loaders do about the indexes: after a successful load through the word-processor, the
    e-book or the flat-text path, the unit at position j has index j.
    After a successful load of a PDF the index of a unit is the number,
    from 0, of the page of the file it was read from: the indexes increase
    strictly along the units, none is below its position, and they are the
    positions when no page of the file is blank. *)
Theorem unit_indexes_after_load (filepath : str) w self (s' : St) :
  load filepath (w, self) = (s', Ok true) ->
  (lower (snd (os_path_splitext filepath)) <> lit ".pdf" -> contiguous (pages (snd s'))) /\
  (lower (snd (os_path_splitext filepath)) = lit ".pdf" ->
   exists doc,
     fitz_open w filepath = Ok doc /\
     increasing (pages (snd s')) /\
     (forall j p, pages (snd s') !! j = Some p -> Z.of_nat j <= index p) /\
     Forall (from_pdf_page doc) (pages (snd s')) /\
     (Forall (fun r => exists raw, r = Ok raw /\ truthy (strip raw) = true) doc ->
      contiguous (pages (snd s')))).
Proof.
  intros Hload. apply load_true in Hload as (w1 & self1 & oc & Hd & _ & ->).
  apply load_dispatch_true in Hd. simpl in Hd. simpl.
  destruct Hd as [(Hext & doc & Hopen & Hloop) | (Hext & Hd)].
  - split; [done |]. intros _. exists doc. split; [done |].
    destruct (pdf_loop_inv doc doc [] [] eq_refl) as (i & Hinc & Hpos & Hfrom).
    { split; [| split].
      - intros j k p q _ Hp. by rewrite lookup_nil in Hp.
      - intros j p Hp. by rewrite lookup_nil in Hp.
      - apply Forall_nil_2. }
    change (len []) with 0 in *. rewrite Hloop in *. simpl in *.
    split; [done |]. split; [| split; [done |]].
    + intros j p Hp. apply Hpos in Hp. lia.
    + intros Hfull.
      pose proof (pdf_loop_contiguous doc 0 [] Hfull contiguous_nil eq_refl) as Hc.
      by rewrite Hloop in Hc.
  - split; [| done]. intros _.
    destruct Hd as [(ps & _ & ->) | [(items & _ & ->) | (content & _ & ->)]].
    + apply docx_pages_contiguous.
    + apply epub_pages_contiguous.
    + by apply window_pages_contiguous.
Qed.

End LoadedUnits.


Section LoadedUnitsRun.
Import Toy.

(** A PDF whose second page is blank: the load
    succeeds and the two units carry the indexes 0 and 2. *)
Lemma pdf_with_blank_page_skips_an_index :
  snd (load (lit "b.pdf") (Examples.library, init)) = Ok true /\
  index <$> pages (snd (fst (load (lit "b.pdf") (Examples.library, init)))) = [0; 2].
Proof. vm_compute. split; reflexivity. Qed.

(** The flat-text file of 650 words loads into two units, indexed 0 and 1. *)
Lemma unit_indexes_after_load_witness :
  load (lit "a.txt") (Examples.library, init)
  = (fst (load (lit "a.txt") (Examples.library, init)), Ok true) /\
  contiguous (pages (snd (fst (load (lit "a.txt") (Examples.library, init))))).
Proof.
  assert (load (lit "a.txt") (Examples.library, init)
          = (fst (load (lit "a.txt") (Examples.library, init)), Ok true)) as Hload.
  { vm_compute. reflexivity. }
  split; [exact Hload |].
  apply (unit_indexes_after_load _ _ _ _ Hload).
  vm_compute. discriminate.
Defined.

End LoadedUnitsRun.

(** ** Retrieval *)

Section Retrieval.
Context {txt : PyText} {wld : World}.
Implicit Types (self : DocumentProcessor Collection) (w : world).

(** [get_full_text], for a cap that is not negative, is the joined text cut
    to the cap. *)
Lemma get_full_text_take self (max_chars : Z) :
  0 <= max_chars ->
  get_full_text self max_chars
  = take (Z.to_nat max_chars) (join (nl ++ nl) (text <$> pages self)).
Proof.
  intros Hcap. unfold get_full_text. rewrite py_slice_nonneg by lia.
  unfold chars_between. by rewrite drop_0, Nat.sub_0_r.
Qed.

(** C4: when the collection handle is none, or the collection counts 0
    chunks, or the query made for the clamped k (which is made when that k
    is not 0) raises, or it returns no documents, [get_relevant_context]
    returns, without raising and without changing anything, exactly
    [get_full_text 10000]: the texts of the units joined in order by a
    blank line and cut to 10 000 characters. *)
Theorem retrieval_falls_back_to_full_text (query : str) (n_results : Z) w self :
  collection self = None \/
  (exists c, collection self = Some c /\ collection_count w c = Ok 0) \/
  (exists c count,
     collection self = Some c /\ collection_count w c = Ok count /\
     count <> 0 /\ Z.min n_results count <> 0 /\
     (collection_query w c query (Z.min n_results count) = Raised \/
      collection_query w c query (Z.min n_results count) = Ok None \/
      collection_query w c query (Z.min n_results count) = Ok (Some []) \/
      exists rest,
        collection_query w c query (Z.min n_results count) = Ok (Some ([] :: rest)))) ->
  get_relevant_context query n_results (w, self)
  = ((w, self), Ok (get_full_text self 10000)) /\
  get_full_text self 10000
  = take (Z.to_nat 10000) (join (nl ++ nl) (text <$> pages self)).
Proof.
  intros Hcase. split; [| by rewrite get_full_text_take by lia].
  unfold get_relevant_context, bind, get_self, ask, try_except, ret. simpl.
  destruct Hcase as [-> | [(c & -> & Hcount) | (c & count & -> & Hcount & Hne & Hk & Hq)]].
  - reflexivity.
  - simpl. rewrite Hcount. by rewrite bool_decide_eq_true_2.
  - simpl. rewrite Hcount. rewrite bool_decide_eq_false_2 by done.
    simpl. rewrite Hcount. rewrite bool_decide_eq_false_2 by done.
    simpl. destruct Hq as [-> | [-> | [-> | [rest ->]]]]; reflexivity.
Qed.

(** C5: with a collection of [count] > 0 chunks, the one query that
    [get_relevant_context] makes is for k = min(n_results, count), which is
    never above [count] and is [count] when more was asked for; the call
    returns whatever the index answers (the full text when the query
    raises) and never raises; when the clamped k is 0 no query is made and
    the result is the empty string. *)
Theorem retrieval_clamps_k (query : str) (n_results : Z) w self (c : Collection) (count : Z) :
  collection self = Some c ->
  collection_count w c = Ok count ->
  0 < count ->
  get_relevant_context query n_results (w, self)
  = ((w, self),
     Ok (if bool_decide (Z.min n_results count = 0) then []
         else match collection_query w c query (Z.min n_results count) with
              | Ok documents => context_of self documents
              | Raised => get_full_text self 10000
              end)) /\
  Z.min n_results count <= count /\
  (count <= n_results -> Z.min n_results count = count) /\
  (Z.min n_results count = 0 ->
   get_relevant_context query n_results (w, self) = ((w, self), Ok [])).
Proof.
  intros Hc Hcount Hpos.
  assert (get_relevant_context query n_results (w, self)
          = ((w, self),
             Ok (if bool_decide (Z.min n_results count = 0) then []
                 else match collection_query w c query (Z.min n_results count) with
                      | Ok documents => context_of self documents
                      | Raised => get_full_text self 10000
                      end))) as Hrun.
  { unfold get_relevant_context, bind, get_self, ask, try_except, ret. simpl.
    rewrite Hc. simpl. rewrite Hcount. rewrite bool_decide_eq_false_2 by lia.
    simpl. rewrite Hcount.
    case_bool_decide; [done |]. simpl.
    by destruct (collection_query w c query (Z.min n_results count)). }
  split; [exact Hrun |]. split; [lia |]. split; [lia |].
  intros Hk. rewrite Hrun. by rewrite bool_decide_eq_true_2.
Qed.

End Retrieval.

(** ** [load] and [unload] *)

Section Lifecycle.
Context {txt : PyText} {wld : World}.
Implicit Types (self : DocumentProcessor Collection) (w : world).

(** C6: when the loader of [load] has produced at least one unit, [load]
    returns true whatever happens while the index is built, the document
    is loaded with the loader's units, and when the index build raised
    (creating the collection, or adding the chunks to it) the collection
    handle is none. *)
Theorem index_failure_does_not_fail_load (filepath : str) w self w1 self1 :
  load_dispatch (lower (snd (os_path_splitext filepath))) filepath
    (w, load_reset filepath self) = ((w1, self1), Ok true) ->
  pages self1 <> [] ->
  exists w' oc,
    load filepath (w, self) = ((w', set_collection oc self1), Ok true) /\
    pages (set_collection oc self1) = pages self1 /\
    (snd (build_body (w1, self1)) = Raised -> oc = None).
Proof.
  intros Hd Hpages. rewrite load_unfold.
  destruct (build_vector_index_spec w1 self1) as (w' & oc & Hbuild & Hraised & _).
  exists w', oc. split; [| split; [done | done]].
  unfold try_except, bind at 1. rewrite Hd.
  unfold bind at 1, get_self at 1. simpl.
  rewrite bool_decide_eq_true_2.
  - unfold bind. by rewrite Hbuild.
  - destruct (pages self1); [done |]. unfold len. simpl. lia.
Qed.

(** [unload] always returns true.  It clears the pages, the cursor, the
    path, the type and the title; the collection handle becomes none when
    there was none or when the collection was deleted, and stays when the
    deletion raised. *)
Lemma unload_spec (delete_file : bool) w self :
  exists w' oc,
    unload delete_file (w, self)
    = ((w', mkDP [] 0 None None (lit "Untitled Document") (collection_name self) oc),
       Ok true) /\
    (oc = None \/ oc = collection self).
Proof.
  unfold unload, try_except at 1, bind at 1, get_self at 1. simpl.
  assert (exists w0,
    (match file_path self with
     | Some path =>
         if delete_file && truthy path
         then bind (gets (fun w => os_path_isfile w path))
                (fun is_file : bool =>
                   if is_file
                   then try_except (call (fun w => os_remove w path)) (ret tt)
                   else ret tt)
         else ret tt
     | None => ret tt
     end) (w, self) = ((w0, self), Ok tt)) as [w0 Hfile].
  { destruct (file_path self) as [path |]; [| by exists w].
    destruct (delete_file && truthy path); [| by exists w].
    unfold bind, gets. simpl. destruct (os_path_isfile w path); [| by exists w].
    unfold try_except, call. simpl.
    destruct (os_remove w path) as [w0 [[] |]]; by exists w0. }
  unfold bind at 1. rewrite Hfile.
  destruct (collection self) as [c |] eqn:Hc.
  - unfold bind at 1, try_except at 1, bind at 1, call at 1. simpl.
    destruct (delete_collection w0 (collection_name self)) as [w1 [[] |]]; simpl.
    + exists w1, None. split; [reflexivity | by left].
    + exists w1, (Some c). split; [| by right].
      cbv [set_title set_doc_type set_file_path set_current_page set_pages]. simpl.
      by rewrite Hc.
  - exists w0, None. split; [| by left].
    unfold bind, ret, modify. simpl.
    cbv [set_title set_doc_type set_file_path set_current_page set_pages]. simpl.
    by rewrite Hc.
Qed.

(** X19: where [unload] is idempotent: once a call has left no collection
    handle (there was none, or the deletion succeeded), the object is
    unloaded and a second call returns true and changes nothing. *)
Lemma unload_twice_when_handle_cleared (delete_file delete_again : bool) w self :
  collection (snd (fst (unload delete_file (w, self)))) = None ->
  unloaded (snd (fst (unload delete_file (w, self)))) /\
  unload delete_again (fst (unload delete_file (w, self)))
  = (fst (unload delete_file (w, self)), Ok true).
Proof.
  destruct (unload_spec delete_file w self) as (w' & oc & -> & _). simpl.
  intros ->. split; [done |]. reflexivity.
Qed.

End Lifecycle.

Section FailedLoad.
Context {txt : PyText} {wld : World}.
Implicit Types (self : DocumentProcessor Collection) (w : world).

(** The loaders write the pages and the type only. *)
Lemma load_dispatch_keeps (ext filepath : str) w self (s1 : St) (r : outcome bool) :
  load_dispatch ext filepath (w, self) = (s1, r) ->
  fst s1 = w /\ collection (snd s1) = collection self /\
  current_page (snd s1) = current_page self.
Proof.
  unfold load_dispatch.
  destruct (decide (ext = lit ".pdf")) as [Hpdf | Hpdf].
  { unfold _load_pdf, bind, ask, get_self, modify, of_outcome, ret. simpl.
    destruct (fitz_open w filepath) as [doc |]; [| by intros [= <- <-]].
    destruct (pdf_loop 0 doc (pages self)) as [pgs [[] |]]; simpl;
      by intros [= <- <-]. }
  destruct (decide (ext = lit ".docx" \/ ext = lit ".doc")) as [Hdocx | Hdocx].
  { unfold _load_docx, bind, ask, modify, ret. simpl.
    destruct (docx_Document w filepath) as [paragraphs |]; by intros [= <- <-]. }
  destruct (decide (ext = lit ".epub")) as [Hepub | Hepub].
  { unfold _load_epub, bind, ask, modify, ret. simpl.
    destruct (epub_read_epub w filepath) as [items |]; by intros [= <- <-]. }
  destruct (decide (ext = lit ".txt")) as [Htxt | Htxt]; [| by intros [= <- <-]].
  unfold _load_txt, bind, ask, modify, ret. simpl.
  destruct (open_read w filepath) as [content |]; by intros [= <- <-].
Qed.

(** A [load] that returns false has not touched the index: the world is
    as before, the cursor is 0, and the collection handle is the one the
    object had before the call, none or not. *)
Lemma failed_load_keeps_collection (filepath : str) w self (s' : St) :
  load filepath (w, self) = (s', Ok false) ->
  fst s' = w /\ current_page (snd s') = 0 /\ collection (snd s') = collection self.
Proof.
  rewrite load_unfold. unfold try_except, bind at 1.
  destruct (load_dispatch _ filepath _) as [[w1 self1] r] eqn:Hd.
  apply load_dispatch_keeps in Hd as (Hw & Hc & Hp). simpl in Hw, Hc, Hp.
  destruct r as [[] |]; simpl.
  - unfold bind at 1, get_self at 1. simpl. case_bool_decide.
    + unfold bind.
      destruct (build_vector_index_spec w1 self1) as (w2 & oc & -> & _).
      simpl. intros [=].
    + intros [= <-]. done.
  - intros [= <-]. done.
  - intros [= <-]. done.
Qed.

(** The dispatch returns false only for an unsupported extension, and then
    nothing was written. *)
Lemma load_dispatch_false (ext filepath : str) w self (s1 : St) :
  load_dispatch ext filepath (w, self) = (s1, Ok false) -> s1 = (w, self).
Proof.
  unfold load_dispatch.
  destruct (decide (ext = lit ".pdf")) as [Hpdf | Hpdf].
  { unfold _load_pdf, bind, ask, get_self, modify, of_outcome, ret. simpl.
    destruct (fitz_open w filepath) as [doc |]; [| intros [=]].
    destruct (pdf_loop 0 doc (pages self)) as [pgs [[] |]]; simpl; intros [=]. }
  destruct (decide (ext = lit ".docx" \/ ext = lit ".doc")) as [Hdocx | Hdocx].
  { unfold _load_docx, bind, ask, modify, ret. simpl.
    destruct (docx_Document w filepath) as [paragraphs |]; intros [=]. }
  destruct (decide (ext = lit ".epub")) as [Hepub | Hepub].
  { unfold _load_epub, bind, ask, modify, ret. simpl.
    destruct (epub_read_epub w filepath) as [items |]; intros [=]. }
  destruct (decide (ext = lit ".txt")) as [Htxt | Htxt]; [| by intros [= <-]].
  unfold _load_txt, bind, ask, modify, ret. simpl.
  destruct (open_read w filepath) as [content |]; intros [=].
Qed.

(** X20: where a failing [load] does leave the unloaded state: the object had
    no collection before the call, and no loader raised (the extension is
    unsupported or the loader found no unit). *)
Lemma failed_load_unloaded (filepath : str) w self (s' : St) :
  load filepath (w, self) = (s', Ok false) ->
  collection self = None ->
  snd (load_dispatch (lower (snd (os_path_splitext filepath))) filepath
         (w, load_reset filepath self)) <> Raised ->
  unloaded (snd s').
Proof.
  intros Hload Hnone Hd.
  destruct (failed_load_keeps_collection _ _ _ _ Hload) as (_ & Hcur & Hcoll).
  split; [| split; [done | congruence]].
  revert Hload. rewrite load_unfold. unfold try_except, bind at 1.
  destruct (load_dispatch _ filepath _) as [[w1 self1] [[] |]] eqn:Hrun; simpl.
  - unfold bind at 1, get_self at 1. simpl. case_bool_decide as Hlen.
    + unfold bind.
      destruct (build_vector_index_spec w1 self1) as (w2 & oc & -> & _).
      simpl. intros [=].
    + intros [= <-]. simpl. destruct (pages self1); [done |].
      unfold len in Hlen. simpl in Hlen. lia.
  - apply load_dispatch_false in Hrun as [= -> ->]. by intros [= <-].
  - by destruct Hd.
Qed.

End FailedLoad.

Section Runs_in_the_toy_world.
Import Toy Examples.

(** C2 at a failing input.  A processor that has loaded a PDF is asked to
    load a file with an unsupported extension: [load] returns false with
    the pages empty and the cursor 0, but the collection handle is still
    the one of the PDF, and [get_relevant_context] goes on answering from
    the PDF's chunks where the full text is empty.  And a PDF whose second
    page cannot be read makes [load] return false with the first page left
    in the pages. *)
Theorem failed_load_leaves_state_behind :
  snd (load (lit "notes.xyz") reading_pdf) = Ok false /\
  pages (snd (fst (load (lit "notes.xyz") reading_pdf))) = [] /\
  current_page (snd (fst (load (lit "notes.xyz") reading_pdf))) = 0 /\
  collection (snd (fst (load (lit "notes.xyz") reading_pdf))) = Some (lit "doc_collection") /\
  snd (get_relevant_context (lit "q") 4 (fst (load (lit "notes.xyz") reading_pdf)))
  = Ok (lit "one" ++ nl ++ lit "..." ++ nl ++ lit "three") /\
  get_full_text (snd (fst (load (lit "notes.xyz") reading_pdf))) 10000 = [] /\
  snd (load (lit "c.pdf") (library, init)) = Ok false /\
  index <$> pages (snd (fst (load (lit "c.pdf") (library, init)))) = [0] /\
  ~ unloaded (snd (fst (load (lit "notes.xyz") reading_pdf))) /\
  ~ unloaded (snd (fst (load (lit "c.pdf") (library, init)))).
Proof.
  repeat (split; [vm_compute; reflexivity |]).
  split; intros (Hpages & _ & Hcoll); vm_compute in Hpages, Hcoll; discriminate.
Qed.

(** C8 at a failing input.  The collection of the first processor has been
    deleted through the client by a second processor, so deleting it
    raises.  Both calls of [unload] return true and leave the same state,
    with the pages empty, the cursor 0 and the path none, but the
    collection handle is still there, and a later [get_relevant_context]
    raises on it. *)
Theorem unload_keeps_handle_when_deletion_raises :
  snd (delete_collection (fst first_after) (collection_name (snd first_after))) = Raised /\
  snd (unload false first_after) = Ok true /\
  snd (unload false (fst (unload false first_after))) = Ok true /\
  fst (unload false (fst (unload false first_after))) = fst (unload false first_after) /\
  pages (snd (fst (unload false first_after))) = [] /\
  current_page (snd (fst (unload false first_after))) = 0 /\
  file_path (snd (fst (unload false first_after))) = None /\
  collection (snd (fst (unload false first_after))) = Some (lit "doc_collection") /\
  snd (get_relevant_context (lit "q") 4 (fst (unload false first_after))) = Raised /\
  ~ unloaded (snd (fst (unload false first_after))).
Proof.
  repeat (split; [vm_compute; reflexivity |]).
  intros (_ & _ & Hcoll). vm_compute in Hcoll. discriminate.
Qed.

(** With the PDF loaded (two chunks), asking for -1 results makes the
    query raise, and the answer is the full text. *)
Lemma retrieval_falls_back_to_full_text_witness :
  collection_query (fst reading_pdf) (lit "doc_collection") (lit "q") (Z.min (-1) 2) = Raised /\
  get_relevant_context (lit "q") (-1) reading_pdf
  = (reading_pdf, Ok (lit "one" ++ nl ++ nl ++ lit "three")).
Proof.
  split; [reflexivity |].
  apply (retrieval_falls_back_to_full_text (wld := toy_world) (lit "q") (-1)
           (fst reading_pdf) (snd reading_pdf)).
  right. right. exists (lit "doc_collection"), 2.
  split; [reflexivity |]. split; [reflexivity |]. split; [discriminate |].
  split; [discriminate |]. left. reflexivity.
Defined.

(** With the PDF loaded (two chunks), asking for 4 results queries for 2,
    where a query for 4 would raise. *)
Lemma retrieval_clamps_k_witness :
  collection_count (fst reading_pdf) (lit "doc_collection") = Ok 2 /\
  collection_query (fst reading_pdf) (lit "doc_collection") (lit "q") 4 = Raised /\
  snd (get_relevant_context (lit "q") 4 reading_pdf)
  = Ok (lit "one" ++ nl ++ lit "..." ++ nl ++ lit "three").
Proof.
  split; [reflexivity |]. split; [reflexivity |].
  pose proof (retrieval_clamps_k (wld := toy_world) (lit "q") 4 (fst reading_pdf) (snd reading_pdf)
                (lit "doc_collection") 2 eq_refl eq_refl eq_refl) as [Hrun _].
  change (fst reading_pdf, snd reading_pdf) with reading_pdf in Hrun.
  rewrite Hrun. reflexivity.
Defined.

(** With the embedder down, adding the chunks raises, and the text file is
    loaded all the same, with no collection. *)
Lemma index_failure_does_not_fail_load_witness :
  snd (build_body
         (fst (load_dispatch (lit ".txt") (lit "a.txt")
                 (library_embedder_down, load_reset (lit "a.txt") init)))) = Raised /\
  snd (load (lit "a.txt") (library_embedder_down, init)) = Ok true /\
  collection (snd (fst (load (lit "a.txt") (library_embedder_down, init)))) = None.
Proof.
  set (s1 := fst (load_dispatch (txt := ascii_text) (wld := toy_world)
                    (lit ".txt") (lit "a.txt")
                    (library_embedder_down, load_reset (lit "a.txt") init))).
  assert (load_dispatch (lower (snd (os_path_splitext (lit "a.txt")))) (lit "a.txt")
            (library_embedder_down, load_reset (lit "a.txt") init)
          = ((fst s1, snd s1), Ok true)) as Hdispatch.
  { vm_compute. reflexivity. }
  assert (pages (snd s1) <> []) as Hpages.
  { vm_compute. discriminate. }
  assert (snd (build_body (fst s1, snd s1)) = Raised) as Hraised.
  { vm_compute. reflexivity. }
  destruct (index_failure_does_not_fail_load (wld := toy_world) (lit "a.txt")
              library_embedder_down init (fst s1) (snd s1) Hdispatch Hpages)
    as (w' & oc & Hload & _ & Hoc).
  split; [exact Hraised |]. split.
  - exact (f_equal snd Hload).
  - etransitivity; [exact (f_equal (fun r => collection (snd (fst r))) Hload) |].
    simpl. by apply Hoc.
Defined.

End Runs_in_the_toy_world.

(** * Further properties of the methods *)

(** ** [load] *)

Section LoadOutcome.
Context {txt : PyText} {wld : World}.
Implicit Types (self : DocumentProcessor Collection) (w : world).

(** The fields a successful dispatch leaves: the loader's pages, the type
    that goes with the extension, and everything else as before. *)
Lemma load_dispatch_fields (ext filepath : str) w self w1 self1 :
  load_dispatch ext filepath (w, self) = ((w1, self1), Ok true) ->
  current_page self1 = current_page self /\
  file_path self1 = file_path self /\
  title self1 = title self /\
  collection_name self1 = collection_name self /\
  ((ext = lit ".pdf" /\ doc_type self1 = Some (lit "PDF")) \/
   ((ext = lit ".docx" \/ ext = lit ".doc") /\ doc_type self1 = Some (lit "DOCX")) \/
   (ext = lit ".epub" /\ doc_type self1 = Some (lit "EPUB")) \/
   (ext = lit ".txt" /\ doc_type self1 = Some (lit "TXT"))).
Proof.
  unfold load_dispatch.
  destruct (decide (ext = lit ".pdf")) as [Hpdf | Hpdf].
  { unfold _load_pdf, bind, ask, get_self, modify, of_outcome, ret. simpl.
    destruct (fitz_open w filepath) as [doc |]; [| intros [=]].
    destruct (pdf_loop 0 doc (pages self)) as [pgs [[] |]]; simpl; [| intros [=]].
    intros [= <- <-]. simpl. repeat (split; [done |]). left. done. }
  destruct (decide (ext = lit ".docx" \/ ext = lit ".doc")) as [Hdocx | Hdocx].
  { unfold _load_docx, bind, ask, modify, ret. simpl.
    destruct (docx_Document w filepath) as [paragraphs |]; [| intros [=]].
    simpl. intros [= <- <-]. simpl. repeat (split; [done |]). right. left. done. }
  destruct (decide (ext = lit ".epub")) as [Hepub | Hepub].
  { unfold _load_epub, bind, ask, modify, ret. simpl.
    destruct (epub_read_epub w filepath) as [items |]; [| intros [=]].
    simpl. intros [= <- <-]. simpl. repeat (split; [done |]). right. right. left. done. }
  destruct (decide (ext = lit ".txt")) as [Htxt | Htxt]; [| intros [=]].
  unfold _load_txt, bind, ask, modify, ret. simpl.
  destruct (open_read w filepath) as [content |]; [| intros [=]].
  simpl. intros [= <- <-]. simpl. repeat (split; [done |]). right. right. right. done.
Qed.

(** X1: [load] never lets an exception out, whatever the parsers and the
    index service do: it returns true or false.  It returns true only for
    a path whose lowered extension is .pdf, .docx, .doc, .epub or .txt. *)
Theorem load_never_raises (filepath : str) w self :
  (exists b : bool, snd (load filepath (w, self)) = Ok b) /\
  (snd (load filepath (w, self)) = Ok true ->
   lower (snd (os_path_splitext filepath)) ∈
     [lit ".pdf"; lit ".docx"; lit ".doc"; lit ".epub"; lit ".txt"]).
Proof.
  split.
  - rewrite load_unfold. unfold try_except.
    match goal with |- context [match ?body ?s with _ => _ end] =>
      destruct (body s) as [s1 [b |]] end; simpl; eauto.
  - destruct (load filepath (w, self)) as [s' r] eqn:Hload. simpl. intros ->.
    apply load_true in Hload as (w1 & self1 & oc & Hd & _).
    apply load_dispatch_fields in Hd as (_ & _ & _ & _ & Hext).
    destruct Hext as [[-> _] | [[[-> | ->] _] | [[-> _] | [-> _]]]];
      rewrite !elem_of_cons; auto 10.
Qed.

(** X2: when [load] returns true the document is loaded: there is at least
    one unit, the cursor is 0 and so within the units, the path is the one
    given, the title is its base name, and the type is the one of the
    extension; the collection name is as before. *)
Theorem load_success_state (filepath : str) w self (s' : St) :
  load filepath (w, self) = (s', Ok true) ->
  pages (snd s') <> [] /\
  current_page (snd s') = 0 /\
  0 <= current_page (snd s') < page_count (snd s') /\
  file_path (snd s') = Some filepath /\
  title (snd s') = os_path_basename filepath /\
  collection_name (snd s') = collection_name self /\
  ((lower (snd (os_path_splitext filepath)) = lit ".pdf" /\
    doc_type (snd s') = Some (lit "PDF")) \/
   ((lower (snd (os_path_splitext filepath)) = lit ".docx" \/
     lower (snd (os_path_splitext filepath)) = lit ".doc") /\
    doc_type (snd s') = Some (lit "DOCX")) \/
   (lower (snd (os_path_splitext filepath)) = lit ".epub" /\
    doc_type (snd s') = Some (lit "EPUB")) \/
   (lower (snd (os_path_splitext filepath)) = lit ".txt" /\
    doc_type (snd s') = Some (lit "TXT"))).
Proof.
  intros Hload. apply load_true in Hload as (w1 & self1 & oc & Hd & Hpages & ->).
  apply load_dispatch_fields in Hd as (Hcur & Hpath & Htitle & Hname & Hext).
  simpl in *. split; [done |]. split; [done |]. split.
  - rewrite Hcur. unfold page_count, len. simpl.
    destruct (pages self1); [done | simpl; lia].
  - by rewrite Hpath, Htitle, Hname.
Qed.

End LoadOutcome.

(** ** [unload] and the reads that follow it *)

Section AfterUnload.
Context {txt : PyText} {wld : World}.
Implicit Types (self : DocumentProcessor Collection) (w : world).

(** X3: [unload] never raises and never returns false, with or without
    [delete_file] and whatever the file system and the index service do;
    afterwards there are no pages, the cursor is 0, the path and the type
    are none and the title is the default one, while the collection name
    is kept. *)
Theorem unload_always_succeeds (delete_file : bool) w self :
  snd (unload delete_file (w, self)) = Ok true /\
  pages (snd (fst (unload delete_file (w, self)))) = [] /\
  current_page (snd (fst (unload delete_file (w, self)))) = 0 /\
  file_path (snd (fst (unload delete_file (w, self)))) = None /\
  doc_type (snd (fst (unload delete_file (w, self)))) = None /\
  title (snd (fst (unload delete_file (w, self)))) = lit "Untitled Document" /\
  collection_name (snd (fst (unload delete_file (w, self)))) = collection_name self.
Proof.
  destruct (unload_spec delete_file w self) as (w' & oc & -> & _). done.
Qed.

(** X4: after [unload] every read degrades instead of failing: the page
    count is 0, the current text, any page, any chapter and the full text
    are empty, the current label is "Unknown", a search finds nothing, and
    the three moves of the cursor are refused. *)
Theorem reads_after_unload (delete_file : bool) w self (query : str) (i max_chars : Z) :
  page_count (snd (fst (unload delete_file (w, self)))) = 0 /\
  get_current_text (snd (fst (unload delete_file (w, self)))) = [] /\
  get_current_label (snd (fst (unload delete_file (w, self)))) = lit "Unknown" /\
  get_page (snd (fst (unload delete_file (w, self)))) i = [] /\
  get_chapter_text (snd (fst (unload delete_file (w, self)))) i = [] /\
  get_full_text (snd (fst (unload delete_file (w, self)))) max_chars = [] /\
  search (snd (fst (unload delete_file (w, self)))) query = [] /\
  snd (next_page (snd (fst (unload delete_file (w, self))))) = false /\
  snd (prev_page (snd (fst (unload delete_file (w, self))))) = false /\
  snd (go_to_page (snd (fst (unload delete_file (w, self)))) i) = false.
Proof.
  destruct (unload_spec delete_file w self) as (w' & oc & -> & _). simpl.
  split; [done |]. split; [done |]. split; [done |].
  split; [unfold get_page; simpl; by rewrite bool_decide_eq_false_2 by (unfold len; simpl; lia) |].
  split; [unfold get_chapter_text; simpl;
          by rewrite bool_decide_eq_false_2 by (unfold len; simpl; lia) |].
  split; [unfold get_full_text, py_slice; simpl; by rewrite ?drop_nil, ?take_nil |].
  split; [done |]. split; [done |]. split; [done |].
  unfold go_to_page. simpl. by rewrite bool_decide_eq_false_2 by (unfold len; simpl; lia).
Qed.

End AfterUnload.

(** ** The cursor and the reads *)

Section CursorReads.
Context {C : Type}.
Implicit Types self : DocumentProcessor C.

Lemma set_current_page_same self : set_current_page (current_page self) self = self.
Proof. by destruct self. Qed.

Lemma set_current_page_twice self (c d : Z) :
  set_current_page d (set_current_page c self) = set_current_page d self.
Proof. reflexivity. Qed.

(** X5: a move forward that succeeds is undone by a move back, and a move
    back that succeeds is undone by a move forward: the object is again the
    one before the two calls.  (The first needs the cursor not to be
    negative, the second needs it to be below the page count.) *)
Theorem next_prev_round_trip self :
  (0 <= current_page self ->
   snd (next_page self) = true ->
   prev_page (fst (next_page self)) = (self, true)) /\
  (current_page self < page_count self ->
   snd (prev_page self) = true ->
   next_page (fst (prev_page self)) = (self, true)).
Proof.
  split.
  - intros Hc. destruct (next_page_cases self) as [[Hn ->] | [Hn ->]]; [| done].
    intros _. simpl. unfold prev_page. simpl.
    rewrite bool_decide_eq_true_2 by lia. rewrite set_current_page_twice.
    replace (current_page self + 1 - 1) with (current_page self) by lia.
    by rewrite set_current_page_same.
  - intros Hc. destruct (prev_page_cases self) as [[Hn ->] | [Hn ->]]; [| done].
    intros _. simpl. unfold next_page. simpl. unfold page_count in Hc.
    rewrite bool_decide_eq_true_2 by lia. rewrite set_current_page_twice.
    replace (current_page self - 1 + 1) with (current_page self) by lia.
    by rewrite set_current_page_same.
Qed.

(** X6: after a [go_to_page i] that succeeds, the current text is
    [get_page i] of the object before the call, which is the text of the
    unit at position i, and the current label is that unit's label. *)
Theorem current_text_after_go_to_page self (i : Z) :
  snd (go_to_page self i) = true ->
  exists p,
    pages self !! Z.to_nat i = Some p /\
    get_current_text (fst (go_to_page self i)) = text p /\
    get_current_text (fst (go_to_page self i)) = get_page self i /\
    get_current_label (fst (go_to_page self i)) = label p.
Proof.
  destruct (go_to_page_cases self i) as [[Hi ->] | [Hi ->]]; [| done].
  intros _. simpl. unfold page_count in Hi.
  destruct (lookup_lt_is_Some_2 (pages self) (Z.to_nat i)) as [p Hp].
  { unfold len in Hi. lia. }
  exists p. split; [done |].
  unfold get_current_text, get_current_label, get_page, text_at. simpl.
  rewrite !bool_decide_eq_true_2 by done. by rewrite Hp.
Qed.


End CursorReads.

(** ** More on [search] *)

Section SearchBounds.
Context {txt : PyText} {C : Type}.
Implicit Types self : DocumentProcessor C.

Lemma chars_between_length {A} (t : list A) (a b : nat) :
  (length (chars_between t a b) <= b - a)%nat.
Proof. unfold chars_between. rewrite length_take. lia. Qed.

Lemma chars_between_infix {A} (t : list A) (a b : nat) :
  exists pre post, t = pre ++ chars_between t a b ++ post.
Proof.
  exists (take a t), (drop (b - a) (drop a t)). unfold chars_between.
  by rewrite take_drop, take_drop.
Qed.

(** X8: every match that [search] returns comes from a unit of the
    document, whose index and label it carries and whose lowered text
    contains the lowered query; its snippet is a piece of that unit's
    original text and has at most 180 characters.  There are never more
    matches than units. *)
Theorem search_matches_come_from_units self (query : str) (m : search_match) :
  m ∈ search self query ->
  (exists p,
     p ∈ pages self /\
     m_page m = index p /\ m_label m = label p /\
     contains (lower (text p)) (lower query) /\
     exists pre post, text p = pre ++ m_snippet m ++ post) /\
  len (m_snippet m) <= 180 /\
  (length (search self query) <= length (pages self))%nat.
Proof.
  intros Hm. unfold search in *.
  apply list_elem_of_omap in Hm as (p & Hp & Hsearch).
  destruct (search_page_spec query p) as [[Hnone _] | (pos & Hpos & Hsome)];
    [congruence |].
  rewrite Hsome in Hsearch. injection Hsearch as <-. simpl.
  split; [| split].
  - exists p. split; [done |]. split; [done |]. split; [done |].
    split; [exists pos; apply Hpos |]. apply chars_between_infix.
  - pose proof (chars_between_length (text p) (pos - 60) (pos + 120)).
    unfold len. lia.
  - clear. induction (pages self) as [| q qs IH]; [done |].
    cbn [omap list_omap]. destruct (search_page (lower query) q); simpl; lia.
Qed.

(** X9: the empty query matches every unit: when lowering the empty string
    gives the empty string, [search ""] returns one match per unit, in
    order, whose snippet is the first 120 characters of the unit's text. *)
Theorem search_empty_query self :
  lower [] = [] ->
  search self []
  = (fun p => Match (index p) (label p) (take 120 (text p))) <$> pages self.
Proof.
  intros Hlower. unfold search. rewrite Hlower.
  induction (pages self) as [| p ps IH]; [done |].
  cbn [omap list_omap fmap list_fmap]. rewrite IH. unfold search_page at 1.
  assert (find (lower (text p)) [] = 0) as ->.
  { unfold find. by destruct (lower (text p)). }
  rewrite bool_decide_eq_true_2 by lia. simpl.
  rewrite py_slice_nonneg by lia. unfold chars_between. simpl.
  by rewrite drop_0.
Qed.

End SearchBounds.

(** ** More on retrieval and the index build *)

Section RetrievalErrors.
Context {txt : PyText} {wld : World}.
Implicit Types (self : DocumentProcessor Collection) (w : world).

(** X10: [get_relevant_context] changes neither the object nor the world,
    and the one exception it lets out is the one of [collection.count()]:
    it raises exactly when there is a collection handle on which counting
    raises (a raise of the query is caught). *)
Theorem retrieval_raises_only_when_count_raises (query : str) (n_results : Z) w self :
  fst (get_relevant_context query n_results (w, self)) = (w, self) /\
  (snd (get_relevant_context query n_results (w, self)) = Raised <->
   exists c, collection self = Some c /\ collection_count w c = Raised).
Proof.
  unfold get_relevant_context, bind, get_self, ask, try_except, ret. simpl.
  destruct (collection self) as [c |] eqn:Hc; simpl.
  - destruct (collection_count w c) as [count |] eqn:Hcount; simpl.
    + assert (~ exists c0, Some c = Some c0 /\ collection_count w c0 = Raised) as Hno.
      { intros (c0 & [= <-] & Hr). congruence. }
      case_bool_decide; simpl; [by split |].
      rewrite Hcount. simpl. case_bool_decide; simpl; [by split |].
      destruct (collection_query w c query (Z.min n_results count)); simpl; by split.
    + split; [done |]. split; [| done]. intros _. by exists c.
  - split; [done |]. split; [done |]. intros (c & [=] & _).
Qed.

(** X11: [_build_vector_index] never raises.  It leaves the pages, the
    cursor, the path, the type, the title and the collection name as they
    are; the collection handle afterwards is set when the body of its [try]
    ran through and none when that body raised, whatever the handle was
    before. *)
Theorem build_index_only_sets_the_handle w self :
  snd (_build_vector_index (w, self)) = Ok tt /\
  pages (snd (fst (_build_vector_index (w, self)))) = pages self /\
  current_page (snd (fst (_build_vector_index (w, self)))) = current_page self /\
  file_path (snd (fst (_build_vector_index (w, self)))) = file_path self /\
  doc_type (snd (fst (_build_vector_index (w, self)))) = doc_type self /\
  title (snd (fst (_build_vector_index (w, self)))) = title self /\
  collection_name (snd (fst (_build_vector_index (w, self)))) = collection_name self /\
  (snd (build_body (w, self)) = Raised ->
   collection (snd (fst (_build_vector_index (w, self)))) = None) /\
  (snd (build_body (w, self)) = Ok tt ->
   is_Some (collection (snd (fst (_build_vector_index (w, self)))))).
Proof.
  destruct (build_vector_index_spec w self) as (w' & oc & -> & Hraised & Hok).
  simpl. repeat (split; [reflexivity |]). split; [exact Hraised | exact Hok].
Qed.

End RetrievalErrors.

(** ** What each format gives *)

Section Dispatch.
Context {txt : PyText} {wld : World}.
Implicit Types (self : DocumentProcessor Collection) (w : world).
Local Open Scope py_scope.

Ltac other_extension :=
  match goal with
  | H : lit _ = lit _ |- _ => by vm_compute in H
  | H : lit _ = lit _ \/ lit _ = lit _ |- _ =>
      by destruct H as [H | H]; vm_compute in H
  end.

Lemma load_dispatch_pdf (filepath : str) :
  load_dispatch (lit ".pdf") filepath
  = (_load_pdf filepath ;; modify (set_doc_type (Some (lit "PDF"))) ;; ret true).
Proof. unfold load_dispatch. by destruct (decide _). Qed.

Lemma load_dispatch_docx (ext filepath : str) :
  ext = lit ".docx" \/ ext = lit ".doc" ->
  load_dispatch ext filepath
  = (_load_docx filepath ;; modify (set_doc_type (Some (lit "DOCX"))) ;; ret true).
Proof.
  intros Hext. unfold load_dispatch.
  destruct (decide (ext = lit ".pdf")) as [-> |]; [other_extension |].
  by destruct (decide _).
Qed.

Lemma load_dispatch_epub (filepath : str) :
  load_dispatch (lit ".epub") filepath
  = (_load_epub filepath ;; modify (set_doc_type (Some (lit "EPUB"))) ;; ret true).
Proof.
  unfold load_dispatch.
  repeat (destruct (decide _); [try other_extension | try done]).
  all: done.
Qed.

Lemma load_dispatch_txt (filepath : str) :
  load_dispatch (lit ".txt") filepath
  = (_load_txt filepath ;; modify (set_doc_type (Some (lit "TXT"))) ;; ret true).
Proof.
  unfold load_dispatch.
  repeat (destruct (decide _); [try other_extension | try done]).
  all: done.
Qed.

(** [load] once the dispatch has run a loader: true with the loader's
    pages and the handle of the index build when there are pages, false
    with nothing else done when there are none; and false when the loader
    raised. *)
Lemma load_after_dispatch (filepath : str) w self w1 self1 :
  load_dispatch (lower (snd (os_path_splitext filepath))) filepath
    (w, load_reset filepath self) = ((w1, self1), Ok true) ->
  (pages self1 <> [] ->
   exists w' oc, load filepath (w, self) = ((w', set_collection oc self1), Ok true)) /\
  (pages self1 = [] -> load filepath (w, self) = ((w1, self1), Ok false)).
Proof.
  intros Hd.
  assert (load filepath (w, self)
          = if bool_decide (len (pages self1) > 0)
            then let (s', _) := _build_vector_index (w1, self1) in (s', Ok true)
            else ((w1, self1), Ok false)) as ->.
  { rewrite load_unfold. unfold try_except, bind at 1. rewrite Hd.
    unfold bind at 1, get_self at 1. simpl. case_bool_decide; [| done].
    unfold bind.
    by destruct (build_vector_index_spec w1 self1) as (w' & oc & -> & _). }
  split; intros Hpages.
  - destruct (build_vector_index_spec w1 self1) as (w' & oc & -> & _).
    exists w', oc. rewrite bool_decide_eq_true_2; [done |].
    destruct (pages self1); [done |]. unfold len. simpl. lia.
  - rewrite bool_decide_eq_false_2; [done |].
    rewrite Hpages. unfold len. simpl. lia.
Qed.

Lemma load_after_raise (filepath : str) w self (s1 : St) :
  load_dispatch (lower (snd (os_path_splitext filepath))) filepath
    (w, load_reset filepath self) = (s1, Raised) ->
  load filepath (w, self) = (s1, Ok false).
Proof.
  intros Hd. rewrite load_unfold. unfold try_except, bind at 1. by rewrite Hd.
Qed.

End Dispatch.

Section TextFacts.
Context {txt : PyText}.

Lemma truthy_true {A} (l : list A) : truthy l = true <-> l <> [].
Proof. destruct l; simpl; split; congruence. Qed.

Lemma has_text_cons (c : ascii) (s : str) :
  has_text (c :: s) <-> isspace c = false \/ has_text s.
Proof. unfold has_text. apply Exists_cons. Qed.

Lemma has_text_nil : ~ has_text [].
Proof. unfold has_text. intros Hno. by apply Exists_nil in Hno. Qed.

Lemma has_text_app (s t : str) : has_text (s ++ t) <-> has_text s \/ has_text t.
Proof. unfold has_text. apply Exists_app. Qed.

Lemma split_from_nonempty (cur s : str) :
  split_from cur s <> [] <-> cur <> [] \/ has_text s.
Proof.
  revert cur. induction s as [| c s IH]; intros cur.
  - simpl. destruct cur as [| d cur].
    + split; [done |]. intros [? | Hno]; [done | by apply has_text_nil in Hno].
    + split; [by left | done].
  - simpl. rewrite has_text_cons. destruct (isspace c) eqn:Hc.
    + destruct cur as [| d cur].
      * rewrite IH. split; [intros [? | ?]; [done | auto] |].
        intros [? | [? | ?]]; [done | done | auto].
      * split; [by left | done].
    + rewrite IH. split; [auto |]. intros _. left. by destruct cur.
Qed.

(** A string splits into at least one word exactly when it has text. *)
Lemma split_nonempty (s : str) : split s <> [] <-> has_text s.
Proof.
  unfold split. rewrite split_from_nonempty. split; [by intros [? | ?] | auto].
Qed.

Lemma lstrip_has_text (s : str) : has_text (lstrip s) <-> has_text s.
Proof.
  induction s as [| c s IH]; [done |].
  simpl. destruct (isspace c) eqn:Hc; [| done].
  rewrite IH, has_text_cons. split; [auto |]. intros [? | ?]; [congruence | done].
Qed.

Lemma lstrip_nonempty (s : str) : lstrip s <> [] <-> has_text s.
Proof.
  induction s as [| c s IH].
  - simpl. pose proof has_text_nil. tauto.
  - simpl. rewrite has_text_cons. destruct (isspace c) eqn:Hc.
    + rewrite IH. split; [auto |]. intros [? | ?]; [congruence | done].
    + split; [auto | done].
Qed.

(** Stripping leaves something exactly when the string has text. *)
Lemma strip_truthy (s : str) : truthy (strip s) = true <-> has_text s.
Proof.
  rewrite truthy_true. unfold strip.
  assert (forall l : str, rev l <> [] <-> l <> []) as Hrev.
  { intros l. split; intros Hl Hnil; apply Hl.
    - by rewrite Hnil.
    - apply (f_equal (@rev ascii)) in Hnil. by rewrite rev_involutive in Hnil. }
  assert (forall l : str, has_text (rev l) <-> has_text l) as Hrev_text.
  { intros l. unfold has_text. split; intros Hl.
    - rewrite <- (rev_involutive l). by apply Exists_rev.
    - by apply Exists_rev. }
  rewrite Hrev, lstrip_nonempty, Hrev_text.
  apply lstrip_has_text.
Qed.

Lemma join_nonempty (sep : str) (x : str) (l : list str) :
  x <> [] -> join sep (x :: l) <> [].
Proof. intros Hx. destruct l; simpl; [done |]. by destruct x. Qed.

Lemma has_text_join (sep : str) (l : list str) :
  Exists has_text l -> has_text (join sep l).
Proof.
  induction l as [| x l IH]; intros Hl; [by apply Exists_nil in Hl |].
  apply Exists_cons in Hl. destruct l as [| y l].
  - simpl. destruct Hl as [? | Hl]; [done | by apply Exists_nil in Hl].
  - change (join sep (x :: y :: l)) with (x ++ sep ++ join sep (y :: l)).
    rewrite !has_text_app. destruct Hl as [? | ?]; auto.
Qed.

End TextFacts.

Section Windows.
Context {txt : PyText}.

(** The pages of the fixed-size windows, one by one. *)
Lemma window_pages_spec (chunk_size : Z) (words : list str) :
  0 < chunk_size ->
  window_pages chunk_size words []
  = (fun j : nat =>
       Page (Z.of_nat j)
            (join (lit " ")
               (chars_between words (j * Z.to_nat chunk_size)
                  (j * Z.to_nat chunk_size + Z.to_nat chunk_size)))
            (lit "Section " ++ str_of_Z (Z.of_nat j + 1)))
    <$> seq 0 (Z.to_nat (ceil_div (len words) chunk_size)).
Proof.
  intros Hcs. unfold window_pages. rewrite app_nil_l.
  rewrite py_range_spec by done. rewrite <- list_fmap_compose.
  apply list_fmap_ext. intros _ j _. simpl.
  rewrite Z.div_mul by lia. rewrite py_slice_nonneg by lia.
  do 3 f_equal; lia.
Qed.

(** Consecutive windows of [k] items put end to end give the list back. *)
Lemma concat_windows {A} (k n : nat) (l : list A) :
  (length l <= n * k)%nat ->
  concat ((fun j => chars_between l (j * k) (j * k + k)) <$> seq 0 n) = l.
Proof.
  revert l. induction n as [| n IH]; intros l Hl.
  - destruct l; [done | simpl in Hl; lia].
  - cbn [seq fmap list_fmap concat]. rewrite <- fmap_S_seq, <- list_fmap_compose.
    transitivity (take k l ++ drop k l); [| apply take_drop]. f_equal.
    + unfold chars_between. simpl. by rewrite drop_0, Nat.sub_0_r.
    + rewrite <- (IH (drop k l)) by (rewrite length_drop; lia).
      f_equal. apply list_fmap_ext. intros _ j _. simpl.
      unfold chars_between. rewrite drop_drop.
      replace (S j * k)%nat with (k + j * k)%nat by lia. f_equal. lia.
Qed.

End Windows.

Section FlatText.
Context {txt : PyText} {wld : World}.
Implicit Types (self : DocumentProcessor Collection) (w : world).

(** Once the dispatch has run a loader, [load] returns whether the loader
    left pages, and these are the pages afterwards. *)
Lemma load_pages_of_dispatch (filepath : str) w self w1 self1 :
  load_dispatch (lower (snd (os_path_splitext filepath))) filepath
    (w, load_reset filepath self) = ((w1, self1), Ok true) ->
  snd (load filepath (w, self)) = Ok (truthy (pages self1)) /\
  pages (snd (fst (load filepath (w, self)))) = pages self1.
Proof.
  intros Hd. destruct (load_after_dispatch _ _ _ _ _ Hd) as [Hsome Hnone].
  destruct (pages self1) as [| p ps] eqn:Hpages.
  - by rewrite Hnone.
  - destruct Hsome as (w' & oc & ->); [done |]. simpl. by rewrite Hpages.
Qed.

Lemma load_txt_dispatch (filepath content : str) w self :
  lower (snd (os_path_splitext filepath)) = lit ".txt" ->
  open_read w filepath = Ok content ->
  load_dispatch (lower (snd (os_path_splitext filepath))) filepath
    (w, load_reset filepath self)
  = ((w, set_doc_type (Some (lit "TXT"))
           (set_pages (window_pages 600 (split content) []) (load_reset filepath self))),
     Ok true).
Proof.
  intros -> Hread. rewrite load_dispatch_txt.
  unfold _load_txt, bind, ask, modify, ret. simpl. by rewrite Hread.
Qed.

(** X12: loading a flat-text file that can be read returns true exactly
    when the file has a character that is not whitespace.  Its units are
    windows of 600 words: there are ceil(M / 600) of them for M words; and,
    a space being whitespace, the words of the units put end to end are the
    words of the file, none lost and none repeated, each unit holds between
    1 and 600 words, and its label is "Section" and its index plus one. *)
Theorem flat_text_units_partition_the_words (filepath content : str) w self :
  lower (snd (os_path_splitext filepath)) = lit ".txt" ->
  open_read w filepath = Ok content ->
  (snd (load filepath (w, self)) = Ok true <-> has_text content) /\
  len (pages (snd (fst (load filepath (w, self)))))
  = ceil_div (len (split content)) 600 /\
  (isspace " "%char = true ->
   concat ((fun p => split (text p)) <$> pages (snd (fst (load filepath (w, self)))))
   = split content /\
   Forall (fun p => 1 <= len (split (text p)) <= 600 /\
                    label p = lit "Section " ++ str_of_Z (index p + 1))
          (pages (snd (fst (load filepath (w, self)))))).
Proof.
  intros Hext Hread.
  destruct (load_pages_of_dispatch _ _ _ _ _ (load_txt_dispatch _ _ w self Hext Hread))
    as [-> ->].
  simpl. rewrite window_pages_spec by lia.
  pose proof (ceil_div_spec (len (split content)) 600 ltac:(lia)) as Hceil.
  pose proof (len_nonneg (split content)) as Hlen.
  pose proof (split_words content) as Hwords.
  set (words := split content) in *.
  assert (exists n, n = Z.to_nat (ceil_div (len words) 600)) as [n Hn] by eauto.
  rewrite <- Hn.
  assert (words = [] -> n = 0%nat) as Hempty.
  { intros Hnil. rewrite Hnil in Hn.
    pose proof (ceil_div_nonpos (len (@nil str)) 600 ltac:(lia) ltac:(done)). lia. }
  assert (words <> [] -> n <> 0%nat) as Hfull.
  { intros Hne. destruct words; [done |]. unfold len in *. simpl in *. lia. }
  split; [| split].
  - rewrite <- (split_nonempty content). fold words.
    split.
    + intros [= Htruthy]. apply truthy_true in Htruthy.
      intros Hnil. rewrite (Hempty Hnil) in Htruthy. by apply Htruthy.
    + intros Hne. f_equal. apply truthy_true. intros Hnil.
      apply (f_equal length) in Hnil. rewrite length_fmap, length_seq in Hnil.
      by apply Hfull.
  - unfold len at 1. rewrite length_fmap, length_seq. lia.
  - intros Hsp. split.
    + rewrite <- list_fmap_compose.
      rewrite (list_fmap_ext _
                 (fun j => chars_between words (j * Z.to_nat 600)
                             (j * Z.to_nat 600 + Z.to_nat 600))).
      * apply concat_windows. unfold len in *. lia.
      * intros _ j _. simpl. apply split_join; [done |].
        unfold chars_between. by apply Forall_take, Forall_drop.
    + apply Forall_fmap, Forall_seq. intros j Hj. simpl.
      rewrite split_join; [| done | unfold chars_between; by apply Forall_take, Forall_drop].
      split; [| done].
      unfold len, chars_between in *. rewrite length_take, length_drop. lia.
Qed.

End FlatText.

Section WordProcessor.
Context {txt : PyText} {wld : World}.
Implicit Types (self : DocumentProcessor Collection) (w : world).

Lemma nonblank_texts_cons (p : paragraph) (ps : list paragraph) :
  nonblank_texts (p :: ps)
  = if truthy (strip (para_text p))
    then strip (para_text p) :: nonblank_texts ps
    else nonblank_texts ps.
Proof.
  unfold nonblank_texts. rewrite filter_cons.
  destruct (truthy (strip (para_text p))) eqn:Ht.
  - by rewrite decide_True by done.
  - by rewrite decide_False by done.
Qed.

(** The first loop of [_load_docx] over paragraphs that are no headings:
    their texts join the chunk in progress. *)
Lemma docx_fold_body (body : list paragraph) (st : docx_state) :
  Forall (fun p => is_heading p = false) body ->
  foldl docx_step st body
  = DocxState (dx_pages st) (current_chunk st ++ nonblank_texts body)
              (chapter_idx st) (chapter_label st).
Proof.
  intros Hbody. revert st. induction Hbody as [| p ps Hp _ IH]; intros st.
  - simpl. unfold nonblank_texts. simpl. rewrite app_nil_r. by destruct st.
  - simpl. rewrite IH. rewrite nonblank_texts_cons. unfold docx_step.
    unfold is_heading in Hp. rewrite Hp.
    destruct (truthy (strip (para_text p))); simpl; [| done].
    by rewrite <- app_assoc.
Qed.

Lemma docx_pages_close (paragraphs : list paragraph) :
  docx_pages paragraphs []
  = if truthy (docx_close (foldl docx_step (DocxState [] [] 0 (lit "Section 1")) paragraphs))
    then docx_close (foldl docx_step (DocxState [] [] 0 (lit "Section 1")) paragraphs)
    else window_pages 500
           (split (join nl (para_text <$>
                              filter (fun p => truthy (strip (para_text p)) = true)
                                     paragraphs)))
           (docx_close (foldl docx_step (DocxState [] [] 0 (lit "Section 1")) paragraphs)).
Proof. reflexivity. Qed.

(** The first loop over a document laid out in sections. *)
Lemma docx_fold_sections (sections : list (paragraph * list paragraph)) (st : docx_state) :
  Forall well_formed_section sections ->
  chapter_idx st = len (dx_pages st) ->
  docx_close (foldl docx_step st (section_paragraphs sections))
  = docx_close st ++ section_pages (len (docx_close st)) sections.
Proof.
  intros Hsections. revert st.
  induction Hsections as [| [heading body] rest (Hh & Ht & Hbody & Hne) _ IH];
    intros st Hidx.
  - simpl. by rewrite app_nil_r.
  - change (section_paragraphs ((heading, body) :: rest))
      with ((heading :: body) ++ section_paragraphs rest).
    simpl in Hh, Ht, Hbody, Hne.
    rewrite foldl_app. cbn [foldl app].
    rewrite (docx_fold_body body) by done.
    assert (docx_step st heading
            = DocxState (docx_close st) [] (len (docx_close st)) (strip (para_text heading)))
      as ->.
    { unfold docx_step, docx_close. unfold is_heading in Hh. rewrite Hh.
      destruct (truthy (current_chunk st)); simpl; rewrite Ht; [| by rewrite Hidx].
      f_equal. unfold len in *. rewrite length_app. simpl. lia. }
    simpl. rewrite IH by done.
    set (pre := docx_close st).
    assert (docx_close (DocxState pre (nonblank_texts body) (len pre)
                          (strip (para_text heading)))
            = pre ++ [Page (len pre) (join nl (nonblank_texts body))
                           (strip (para_text heading))]) as ->.
    { unfold docx_close. simpl. apply truthy_true in Hne. by rewrite Hne. }
    rewrite <- app_assoc. simpl. do 3 f_equal.
    unfold len. rewrite length_app. simpl. lia.
Qed.

Lemma load_docx_dispatch (filepath : str) (paragraphs : list paragraph) w self :
  lower (snd (os_path_splitext filepath)) = lit ".docx" \/
  lower (snd (os_path_splitext filepath)) = lit ".doc" ->
  docx_Document w filepath = Ok paragraphs ->
  load_dispatch (lower (snd (os_path_splitext filepath))) filepath
    (w, load_reset filepath self)
  = ((w, set_doc_type (Some (lit "DOCX"))
           (set_pages (docx_pages paragraphs []) (load_reset filepath self))),
     Ok true).
Proof.
  intros Hext Hread. rewrite load_dispatch_docx by done.
  unfold _load_docx, bind, ask, modify, ret. simpl. by rewrite Hread.
Qed.

(** X13: a word-processor file without heading paragraphs is loaded as one
    unit, however long it is: index 0, label "Section 1", and the stripped
    texts of its paragraphs that are not blank, one per line.  (The windows
    of 500 words are not used for it.)  When all its paragraphs are blank
    the load returns false. *)
Theorem docx_without_headings_is_one_unit (filepath : str)
    (paragraphs : list paragraph) w self :
  lower (snd (os_path_splitext filepath)) = lit ".docx" \/
  lower (snd (os_path_splitext filepath)) = lit ".doc" ->
  docx_Document w filepath = Ok paragraphs ->
  Forall (fun p => is_heading p = false) paragraphs ->
  (nonblank_texts paragraphs <> [] ->
   snd (load filepath (w, self)) = Ok true /\
   pages (snd (fst (load filepath (w, self))))
   = [Page 0 (join nl (nonblank_texts paragraphs)) (lit "Section 1")]) /\
  (nonblank_texts paragraphs = [] ->
   snd (load filepath (w, self)) = Ok false).
Proof.
  intros Hext Hread Hbody.
  destruct (load_pages_of_dispatch _ _ _ _ _ (load_docx_dispatch _ _ w self Hext Hread))
    as [-> ->].
  simpl. rewrite docx_pages_close, docx_fold_body by done. unfold docx_close. simpl.
  split; intros Htexts.
  - apply truthy_true in Htexts. rewrite Htexts. simpl. done.
  - rewrite Htexts. simpl.
    unfold nonblank_texts in Htexts. apply fmap_nil_inv in Htexts. by rewrite Htexts.
Qed.

(** X14: a word-processor file laid out in sections, each a heading with
    text followed by body paragraphs of which one at least is not blank, is
    loaded as one unit per section, in order and numbered from 0; the label
    of a unit is the stripped text of its heading and its text holds the
    stripped body paragraphs that are not blank, one per line. *)
Theorem docx_sections_become_units (filepath : str)
    (sections : list (paragraph * list paragraph)) w self :
  lower (snd (os_path_splitext filepath)) = lit ".docx" \/
  lower (snd (os_path_splitext filepath)) = lit ".doc" ->
  docx_Document w filepath = Ok (section_paragraphs sections) ->
  Forall well_formed_section sections ->
  sections <> [] ->
  snd (load filepath (w, self)) = Ok true /\
  pages (snd (fst (load filepath (w, self)))) = section_pages 0 sections.
Proof.
  intros Hext Hread Hsections Hne.
  destruct (load_pages_of_dispatch _ _ _ _ _ (load_docx_dispatch _ _ w self Hext Hread))
    as [-> ->].
  simpl. rewrite docx_pages_close, docx_fold_sections by done.
  unfold docx_close. simpl.
  destruct sections as [| [heading body] rest]; [done |]. done.
Qed.

End WordProcessor.

Section WordProcessorText.
Context {txt : PyText} {wld : World}.
Implicit Types (self : DocumentProcessor Collection) (w : world).

Lemma window_pages_nil (chunk_size : Z) (words : list str) :
  0 < chunk_size -> (window_pages chunk_size words [] = [] <-> words = []).
Proof.
  intros Hcs. rewrite window_pages_spec by done.
  pose proof (ceil_div_spec (len words) chunk_size Hcs) as Hceil.
  split.
  - intros Hnil. apply (f_equal length) in Hnil.
    rewrite length_fmap, length_seq in Hnil. simpl in Hnil.
    destruct words; [done |]. unfold len in *. simpl in *. nia.
  - intros ->. pose proof (ceil_div_nonpos (len (@nil str)) chunk_size Hcs ltac:(done)).
    by replace (Z.to_nat (ceil_div (len (@nil str)) chunk_size)) with 0%nat by lia.
Qed.

(** The first loop over blank paragraphs makes no page and no chunk. *)
Lemma docx_fold_blank (paragraphs : list paragraph) (st : docx_state) :
  Forall (fun p => truthy (strip (para_text p)) = false) paragraphs ->
  dx_pages st = [] -> current_chunk st = [] ->
  docx_close (foldl docx_step st paragraphs) = [].
Proof.
  intros Hblank. revert st. induction Hblank as [| p ps Hp _ IH]; intros st Hpages Hchunk.
  - simpl. unfold docx_close. by rewrite Hchunk.
  - simpl. apply IH.
    + unfold docx_step.
      destruct (startswith (style_name p) (lit "Heading")); rewrite ?Hp, ?Hchunk;
        simpl; by rewrite ?Hp.
    + unfold docx_step.
      destruct (startswith (style_name p) (lit "Heading")); rewrite ?Hp, ?Hchunk;
        simpl; by rewrite ?Hp.
Qed.

(** X15: loading a word-processor file that can be read returns true
    exactly when one of its paragraphs, heading or not, has a character
    that is not whitespace. *)
Theorem docx_loads_iff_a_paragraph_has_text (filepath : str)
    (paragraphs : list paragraph) w self :
  lower (snd (os_path_splitext filepath)) = lit ".docx" \/
  lower (snd (os_path_splitext filepath)) = lit ".doc" ->
  docx_Document w filepath = Ok paragraphs ->
  (snd (load filepath (w, self)) = Ok true <->
   Exists (fun p => has_text (para_text p)) paragraphs).
Proof.
  intros Hext Hread.
  destruct (load_pages_of_dispatch _ _ _ _ _ (load_docx_dispatch _ _ w self Hext Hread))
    as [-> _].
  simpl. rewrite docx_pages_close.
  set (closed := docx_close _).
  set (kept := filter (fun p => truthy (strip (para_text p)) = true) paragraphs).
  destruct (Forall_Exists_dec
              (fun p => truthy (strip (para_text p)) = false)
              (fun p => truthy (strip (para_text p)) = true)
              (fun p => match truthy (strip (para_text p)) as b
                          return {b = false} + {b = true}
                        with true => right eq_refl | false => left eq_refl end)
              paragraphs) as [Hblank | Hsome].
  - assert (closed = []) as -> by (by apply docx_fold_blank).
    assert (kept = []) as ->.
    { unfold kept. clear -Hblank. induction Hblank as [| p ps Hp _ IH]; [done |].
      rewrite filter_cons_False by congruence. done. }
    simpl. split; [done |]. intros Hex. exfalso.
    apply Exists_exists in Hex as (p & Hin & Hp).
    rewrite Forall_forall in Hblank. apply Hblank in Hin.
    apply strip_truthy in Hp. congruence.
  - split.
    + intros _. apply Exists_exists in Hsome as (p & Hin & Hp).
      apply Exists_exists. exists p. split; [done |]. by apply strip_truthy.
    + intros _. f_equal. destruct (truthy closed) eqn:Hclosed; [done |].
      destruct closed; [| done]. apply truthy_true.
      rewrite window_pages_nil by lia. apply split_nonempty, has_text_join.
      apply Exists_fmap. apply Exists_exists in Hsome as (p & Hin & Hp).
      apply Exists_exists. exists p. split.
      * unfold kept. by apply list_elem_of_filter.
      * simpl. by apply strip_truthy.
Qed.

End WordProcessorText.

Section EBook.
Context {txt : PyText} {wld : World}.
Implicit Types (self : DocumentProcessor Collection) (w : world).

(** The loop of [_load_epub] appends one page per kept item, in order. *)
Lemma epub_fold_spec (items : list epub_item) (pgs : list page) (idx : Z) :
  exists new,
    foldl epub_step (pgs, idx) items = (pgs ++ new, idx + len new) /\
    Forall2 (fun p item =>
               text p = strip (soup_text item) /\
               label p = match title_tag item with
                         | Some t => strip t
                         | None => lit "Chapter " ++ str_of_Z (index p + 1)
                         end)
            new (filter (fun item => epub_keeps item = true) items).
Proof.
  revert pgs idx. induction items as [| item items IH]; intros pgs idx.
  - exists []. simpl. rewrite app_nil_r. unfold len. simpl.
    split; [f_equal; lia | constructor].
  - cbn [foldl]. destruct (epub_keeps item) eqn:Hkeep.
    + assert (epub_step (pgs, idx) item
              = (pgs ++ [Page idx (strip (soup_text item))
                           match title_tag item with
                           | Some t => strip t
                           | None => lit "Chapter " ++ str_of_Z (idx + 1)
                           end], idx + 1)) as ->.
      { unfold epub_keeps in Hkeep. apply andb_true_iff in Hkeep as [Hdoc Hlong].
        unfold epub_step. by rewrite Hdoc, Hlong. }
      destruct (IH (pgs ++ [Page idx (strip (soup_text item))
                              match title_tag item with
                              | Some t => strip t
                              | None => lit "Chapter " ++ str_of_Z (idx + 1)
                              end]) (idx + 1)) as (new & -> & Hnew).
      eexists (_ :: new). rewrite <- app_assoc. split.
      * simpl. f_equal. unfold len. simpl. lia.
      * rewrite filter_cons_True by done.
        constructor; [done | done].
    + assert (epub_step (pgs, idx) item = (pgs, idx)) as ->.
      { unfold epub_keeps in Hkeep. simpl.
        destruct (is_document item); [| done]. simpl in Hkeep. by rewrite Hkeep. }
      destruct (IH pgs idx) as (new & -> & Hnew). exists new. split; [done |].
      rewrite filter_cons_False by congruence. done.
Qed.

Lemma load_epub_dispatch (filepath : str) (items : list epub_item) w self :
  lower (snd (os_path_splitext filepath)) = lit ".epub" ->
  epub_read_epub w filepath = Ok items ->
  load_dispatch (lower (snd (os_path_splitext filepath))) filepath
    (w, load_reset filepath self)
  = ((w, set_doc_type (Some (lit "EPUB"))
           (set_pages (epub_pages items []) (load_reset filepath self))),
     Ok true).
Proof.
  intros -> Hread. rewrite load_dispatch_epub.
  unfold _load_epub, bind, ask, modify, ret. simpl. by rewrite Hread.
Qed.

(** X16: loading an e-book that can be read returns true exactly when one
    of its items is a document whose stripped text has more than 100
    characters.  The units are these items, in order: a unit's text is the
    item's stripped text, and its label is the stripped text of the item's
    first h1, h2 or h3 tag when it has one (be it empty), and otherwise
    "Chapter" and the unit's index plus one, so skipped items leave no hole
    in the numbering. *)
Theorem epub_units_are_the_long_documents (filepath : str)
    (items : list epub_item) w self :
  lower (snd (os_path_splitext filepath)) = lit ".epub" ->
  epub_read_epub w filepath = Ok items ->
  (snd (load filepath (w, self)) = Ok true <->
   Exists (fun item => epub_keeps item = true) items) /\
  Forall2 (fun p item =>
             text p = strip (soup_text item) /\
             label p = match title_tag item with
                       | Some t => strip t
                       | None => lit "Chapter " ++ str_of_Z (index p + 1)
                       end)
          (pages (snd (fst (load filepath (w, self)))))
          (filter (fun item => epub_keeps item = true) items).
Proof.
  intros Hext Hread.
  destruct (load_pages_of_dispatch _ _ _ _ _ (load_epub_dispatch _ _ w self Hext Hread))
    as [-> ->].
  simpl. unfold epub_pages.
  destruct (epub_fold_spec items [] 0) as (new & -> & Hnew). simpl.
  split; [| done].
  pose proof (Forall2_length _ _ _ Hnew) as Hlen.
  split.
  - intros [= Htruthy]. apply truthy_true in Htruthy.
    destruct (filter _ items) as [| item kept] eqn:Hkept.
    { destruct new; [done | simpl in Hlen; lia]. }
    assert (item ∈ filter (fun item => epub_keeps item = true) items) as Hin
      by (rewrite Hkept; left).
    apply list_elem_of_filter in Hin as [Hkeep Hin].
    apply Exists_exists. by exists item.
  - intros Hex. f_equal. apply truthy_true. intros ->.
    apply Exists_exists in Hex as (item & Hin & Hkeep).
    assert (item ∈ filter (fun item => epub_keeps item = true) items) as Hfil
      by (by apply list_elem_of_filter).
    destruct (filter _ items); [by apply elem_of_nil in Hfil | simpl in Hlen; lia].
Qed.

End EBook.

Section Pdf.
Context {txt : PyText} {wld : World}.
Implicit Types (self : DocumentProcessor Collection) (w : world).

(** The loop of [_load_pdf]: when no page raises it appends the pages that
    have text, in order, each labelled with its page number from 1; when a
    page raises, it raises. *)
Lemma pdf_loop_spec (doc : list (outcome str)) (i : Z) (pgs : list page) :
  (Raised ∉ doc ->
   exists new,
     pdf_loop i doc pgs = (pgs ++ new, Ok tt) /\
     text <$> new = pdf_texts doc /\
     Forall (fun p => label p = lit "Page " ++ str_of_Z (index p + 1)) new) /\
  (Raised ∈ doc -> snd (pdf_loop i doc pgs) = Raised).
Proof.
  revert i pgs. induction doc as [| [raw |] rest IH]; intros i pgs.
  - split.
    + intros _. exists []. by rewrite app_nil_r.
    + intros Hin. by apply elem_of_nil in Hin.
  - cbn [pdf_loop]. unfold pdf_texts. cbn [omap list_omap pdf_page_text].
    destruct (truthy (strip raw)) eqn:Htext.
    + destruct (IH (i + 1)
                  (pgs ++ [Page i (strip raw) (lit "Page " ++ str_of_Z (i + 1))]))
        as [Hok Hraise].
      split.
      * intros Hno. apply not_elem_of_cons in Hno as [_ Hno].
        destruct (Hok Hno) as (new & -> & Htexts & Hlabels).
        eexists (_ :: new). rewrite <- app_assoc. split; [done |].
        split; [rewrite fmap_cons; simpl; f_equal; exact Htexts |]. by constructor.
      * intros Hin. apply elem_of_cons in Hin as [[=] | Hin]. by apply Hraise.
    + destruct (IH (i + 1) pgs) as [Hok Hraise]. split.
      * intros Hno. apply not_elem_of_cons in Hno as [_ Hno]. by apply Hok.
      * intros Hin. apply elem_of_cons in Hin as [[=] | Hin]. by apply Hraise.
  - split.
    + intros Hno. apply not_elem_of_cons in Hno as [Hno _]. done.
    + done.
Qed.

Lemma load_pdf_dispatch (filepath : str) (doc : list (outcome str)) w self :
  lower (snd (os_path_splitext filepath)) = lit ".pdf" ->
  fitz_open w filepath = Ok doc ->
  load_dispatch (lower (snd (os_path_splitext filepath))) filepath
    (w, load_reset filepath self)
  = match snd (pdf_loop 0 doc []) with
    | Ok _ =>
        ((w, set_doc_type (Some (lit "PDF"))
               (set_pages (fst (pdf_loop 0 doc [])) (load_reset filepath self))),
         Ok true)
    | Raised =>
        ((w, set_pages (fst (pdf_loop 0 doc [])) (load_reset filepath self)), Raised)
    end.
Proof.
  intros -> Hread. rewrite load_dispatch_pdf.
  unfold _load_pdf, bind, ask, get_self, modify, of_outcome, ret. simpl.
  rewrite Hread. by destruct (pdf_loop 0 doc []) as [pgs [[] |]].
Qed.

(** X17: loading a PDF that can be opened returns true exactly when no
    page raises while its text is read and some page has text that is not
    blank: one unreadable page fails the load whatever the others hold.
    When no page raises, the units are the pages with text, in order, a
    unit's text being the page's text stripped, and its label "Page" and
    its index plus one, which is the number of the page in the file. *)
Theorem pdf_units_are_the_pages_with_text (filepath : str)
    (doc : list (outcome str)) w self :
  lower (snd (os_path_splitext filepath)) = lit ".pdf" ->
  fitz_open w filepath = Ok doc ->
  (snd (load filepath (w, self)) = Ok true <->
   ((Raised ∉ doc) /\ pdf_texts doc <> [])) /\
  (Raised ∉ doc ->
   text <$> pages (snd (fst (load filepath (w, self)))) = pdf_texts doc /\
   Forall (fun p => label p = lit "Page " ++ str_of_Z (index p + 1))
          (pages (snd (fst (load filepath (w, self)))))).
Proof.
  intros Hext Hread.
  pose proof (load_pdf_dispatch filepath doc w self Hext Hread) as Hd.
  destruct (pdf_loop_spec doc 0 []) as [Hok Hraise].
  destruct (decide (Raised ∈ doc)) as [Hin | Hno].
  - rewrite (Hraise Hin) in Hd. rewrite (load_after_raise _ _ _ _ Hd). simpl.
    split; [| done]. split; [done | by intros [? _]].
  - destruct (Hok Hno) as (new & Hloop & Htexts & Hlabels).
    rewrite Hloop in Hd. simpl in Hd.
    destruct (load_pages_of_dispatch _ _ _ _ _ Hd) as [-> ->]. simpl.
    split; [| done]. rewrite <- Htexts.
    split.
    + intros [= Htruthy]. split; [done |]. apply truthy_true in Htruthy.
      by destruct new.
    + intros [_ Hne]. f_equal. apply truthy_true. by destruct new.
Qed.

End Pdf.

Section UnitsHaveText.
Context {txt : PyText} {wld : World}.
Implicit Types (self : DocumentProcessor Collection) (w : world).

Lemma strip_has_text (s : str) : has_text (strip s) <-> has_text s.
Proof.
  assert (forall l : str, has_text (rev l) <-> has_text l) as Hrev.
  { intros l. unfold has_text. split; intros Hl.
    - rewrite <- (rev_involutive l). by apply Exists_rev.
    - by apply Exists_rev. }
  unfold strip. by rewrite Hrev, lstrip_has_text, Hrev, lstrip_has_text.
Qed.

Lemma has_text_nonempty (s : str) : has_text s -> s <> [].
Proof. intros Hs ->. by apply has_text_nil in Hs. Qed.

Lemma word_has_text (x : str) : is_word x -> has_text x.
Proof.
  intros [Hne Hall]. destruct x as [| c x]; [done |].
  apply Forall_cons in Hall as [Hc _]. by apply Exists_cons_hd.
Qed.

Lemma has_text_join_head (sep x : str) (l : list str) :
  has_text x -> has_text (join sep (x :: l)).
Proof. intros Hx. apply has_text_join. by apply Exists_cons_hd. Qed.

Lemma window_pages_texts (chunk_size : Z) (words : list str) :
  0 < chunk_size -> Forall is_word words ->
  Forall (fun p => has_text (text p)) (window_pages chunk_size words []).
Proof.
  intros Hcs Hwords. rewrite window_pages_spec by done.
  pose proof (ceil_div_spec (len words) chunk_size Hcs) as Hceil.
  apply Forall_fmap, Forall_seq. intros j Hj. simpl.
  unfold chars_between.
  destruct (drop (j * Z.to_nat chunk_size) words) as [| x rest] eqn:Hdrop.
  { apply (f_equal length) in Hdrop. rewrite length_drop in Hdrop.
    unfold len in *. simpl in Hdrop. nia. }
  assert (is_word x) as Hx.
  { apply (Forall_drop _ (j * Z.to_nat chunk_size)) in Hwords.
    rewrite Hdrop in Hwords. by apply Forall_cons in Hwords as [? _]. }
  replace (j * Z.to_nat chunk_size + Z.to_nat chunk_size - j * Z.to_nat chunk_size)%nat
    with (S (Z.to_nat chunk_size - 1)) by lia.
  cbn [take]. by apply has_text_join_head, word_has_text.
Qed.

Lemma docx_step_texts (st : docx_state) (para : paragraph) :
  Forall (fun p => has_text (text p)) (dx_pages st) /\ Forall has_text (current_chunk st) ->
  Forall (fun p => has_text (text p)) (dx_pages (docx_step st para)) /\
  Forall has_text (current_chunk (docx_step st para)).
Proof.
  intros [Hpages Hchunk]. unfold docx_step.
  destruct (startswith _ _).
  - destruct (current_chunk st) as [| x chunk] eqn:Hc;
      cbn [truthy dx_pages current_chunk]; [by split |].
    split; [| constructor]. apply Forall_app. split; [done |].
    apply Forall_cons in Hchunk as [Hx _].
    constructor; [| constructor]. cbn [text]. by apply has_text_join_head.
  - destruct (truthy (strip (para_text para))) eqn:Ht; simpl; [| by split].
    split; [done |]. apply Forall_app. split; [done |].
    constructor; [| constructor]. by apply strip_has_text, strip_truthy.
Qed.

Lemma docx_pages_texts (paragraphs : list paragraph) :
  Forall (fun p => has_text (text p)) (docx_pages paragraphs []).
Proof.
  rewrite docx_pages_close.
  assert (forall st,
            Forall (fun p => has_text (text p)) (dx_pages st) /\
            Forall has_text (current_chunk st) ->
            Forall (fun p => has_text (text p))
                   (docx_close (foldl docx_step st paragraphs)))
    as Hfold.
  { induction paragraphs as [| para ps IH]; intros st Hst.
    - simpl. destruct Hst as [Hpages Hchunk]. unfold docx_close.
      destruct (current_chunk st) as [| x chunk]; cbn [truthy]; [done |].
      apply Forall_app. split; [done |]. apply Forall_cons in Hchunk as [Hx _].
      constructor; [| constructor]. cbn [text]. by apply has_text_join_head.
    - simpl. by apply IH, docx_step_texts. }
  specialize (Hfold (DocxState [] [] 0 (lit "Section 1")) ltac:(by split)).
  destruct (docx_close _) as [| p ps] eqn:Hclosed; simpl; [| done].
  apply window_pages_texts; [lia | apply split_words].
Qed.

(** A text with a word gives at least one chunk. *)
Lemma page_chunks_nonempty (t : str) : has_text t -> page_chunks (split t) <> [].
Proof.
  intros Ht Hnil. apply split_nonempty in Ht.
  apply (f_equal length) in Hnil. unfold page_chunks in Hnil.
  rewrite length_fmap in Hnil.
  pose proof (page_windows_length (split t)) as Hlen.
  pose proof (ceil_div_spec (len (split t)) (chunk_size - overlap) ltac:(by vm_compute)).
  unfold len, chunk_size, overlap in *. rewrite Hnil in Hlen.
  destruct (split t); [done |]. simpl in *. lia.
Qed.

(** X18: after a [load] that returns true every unit, whatever the format,
    has text that is not empty and not blank, and gives at least one chunk
    to the index, so that the index is never built from no chunk at
    all. *)
Theorem loaded_units_have_text (filepath : str) w self (s' : St) :
  load filepath (w, self) = (s', Ok true) ->
  Forall (fun p => text p <> [] /\ has_text (text p) /\
                   page_chunks (split (text p)) <> [])
         (pages (snd s')) /\
  index_docs (pages (snd s')) <> [].
Proof.
  intros Hload.
  assert (Forall (fun p => has_text (text p)) (pages (snd s'))) as Htexts.
  { apply load_true in Hload as (w1 & self1 & oc & Hd & _ & ->).
    apply load_dispatch_true in Hd. simpl in Hd. simpl.
    destruct Hd as [(_ & doc & _ & Hloop) | (_ & Hd)].
    - destruct (pdf_loop_spec doc 0 []) as [Hok Hraise].
      destruct (decide (Raised ∈ doc)) as [Hin | Hno].
      { apply Hraise in Hin. rewrite Hloop in Hin. done. }
      destruct (Hok Hno) as (new & Hnew & Htexts & _).
      rewrite Hloop in Hnew. injection Hnew as ->. simpl.
      apply (Forall_fmap text has_text). rewrite Htexts.
      apply Forall_forall. intros t Ht. unfold pdf_texts in Ht.
      apply list_elem_of_omap in Ht as (r & _ & Hr).
      destruct r as [raw |]; [| done]. simpl in Hr.
      destruct (truthy (strip raw)) eqn:Htruthy; [| done].
      injection Hr as <-. by apply strip_has_text, strip_truthy.
    - destruct Hd as [(ps & _ & ->) | [(items & _ & ->) | (content & _ & ->)]].
      + apply docx_pages_texts.
      + unfold epub_pages. destruct (epub_fold_spec items [] 0) as (new & -> & Hnew).
        simpl.
        assert (Forall (fun item => epub_keeps item = true)
                       (filter (fun item => epub_keeps item = true) items)) as Hkept.
        { apply Forall_forall. intros item Hin.
          by apply list_elem_of_filter in Hin as [? _]. }
        induction Hnew as [| p item new kept [Htext _] _ IH]; [constructor |].
        apply Forall_cons in Hkept as [Hkeep Hkept].
        constructor; [| by apply IH].
        rewrite Htext. unfold epub_keeps in Hkeep.
        apply andb_true_iff in Hkeep as [_ Hlong]. apply bool_decide_eq_true in Hlong.
        apply strip_has_text, strip_truthy, truthy_true.
        intros Hnil. rewrite Hnil in Hlong. unfold len in Hlong. simpl in Hlong. lia.
      + apply window_pages_texts; [lia | apply split_words]. }
  split.
  - eapply Forall_impl; [exact Htexts |]. intros p Hp. simpl.
    split; [by apply has_text_nonempty |]. split; [done | by apply page_chunks_nonempty].
  - apply load_true in Hload as (w1 & self1 & oc & Hd & Hpages & Hs').
    rewrite Hs' in *. simpl in *.
    destruct (pages self1) as [| p ps]; [done |].
    apply Forall_cons in Htexts as [Hp _].
    unfold index_docs. cbn [mbind list_bind]. intros Hnil.
    apply app_eq_nil in Hnil as [Hnil _]. by apply page_chunks_nonempty in Hnil.
Qed.

End UnitsHaveText.

(** ** The further properties at work in the small world *)

Section More_runs_in_the_toy_world.
Import Toy Examples Formats.

(** The text file of 650 words, loaded. *)
Lemma load_success_state_witness :
  current_page (snd first_loaded) = 0 /\
  page_count (snd first_loaded) = 2 /\
  doc_type (snd first_loaded) = Some (lit "TXT").
Proof.
  assert (load (lit "a.txt") (library, init) = (first_loaded, Ok true)) as Hload.
  { vm_compute. reflexivity. }
  destruct (load_success_state (wld := toy_world) (lit "a.txt") library init
              first_loaded Hload) as (_ & Hcur & _).
  split; [exact Hcur |]. vm_compute. split; reflexivity.
Defined.

(** Going to the third of three pages. *)
Lemma current_text_after_go_to_page_witness :
  exists p,
    [Page 0 (lit "a") (lit "Page 1"); Page 1 (lit "b") (lit "Page 2");
     Page 2 (lit "c") (lit "Page 3")] !! 2%nat = Some p /\
    label p = lit "Page 3".
Proof.
  destruct (current_text_after_go_to_page
              (mkDP (Collection := unit)
                 [Page 0 (lit "a") (lit "Page 1"); Page 1 (lit "b") (lit "Page 2");
                  Page 2 (lit "c") (lit "Page 3")] 0 None None [] [] None)
              2 eq_refl) as (p & Hp & _ & _ & _).
  exists p. split; [exact Hp |]. simpl in Hp. by injection Hp as <-.
Defined.

(** The match for "hello" in "say Hello world". *)
Lemma search_matches_come_from_units_witness :
  len (lit "say Hello world") <= 180.
Proof.
  apply (search_matches_come_from_units (txt := ascii_text) (C := unit)
           (mkDP [Page 0 (lit "say Hello world") (lit "Section 1")] 0 None None [] [] None)
           (lit "hello")
           (Match 0 (lit "Section 1") (lit "say Hello world"))).
  vm_compute. left.
Defined.

(** The empty query on two pages. *)
Lemma search_empty_query_witness :
  search (txt := ascii_text) (Collection := unit)
    (mkDP [Page 0 (lit "one") (lit "Page 1"); Page 2 (lit "three") (lit "Page 3")]
          0 None None [] [] None) []
  = [Match 0 (lit "Page 1") (lit "one"); Match 2 (lit "Page 3") (lit "three")].
Proof.
  exact (search_empty_query (txt := ascii_text) (C := unit)
           (mkDP [Page 0 (lit "one") (lit "Page 1"); Page 2 (lit "three") (lit "Page 3")]
                 0 None None [] [] None) eq_refl).
Defined.

(** A flat-text file of 650 words gives two units. *)
Lemma flat_text_units_partition_the_words_witness :
  len (pages (snd (fst (load (lit "a.txt") (papers, init)))))
  = ceil_div (len (split (words_text 650))) 600 /\
  ceil_div (len (split (words_text 650))) 600 = 2.
Proof.
  split; [| vm_compute; reflexivity].
  apply (flat_text_units_partition_the_words (wld := toy_world)
           (lit "a.txt") (words_text 650) papers init); reflexivity.
Defined.

(** The file without headings: its two lines with text in one unit. *)
Lemma docx_without_headings_is_one_unit_witness :
  pages (snd (fst (load (lit "notes.docx") (papers, init))))
  = [Page 0 (lit "first line" ++ nl ++ lit "second line") (lit "Section 1")].
Proof.
  assert (Forall (fun p => is_heading p = false) notes) as Hnotes.
  { repeat (apply Forall_cons_2; [reflexivity |]). apply Forall_nil_2. }
  assert (lower (snd (os_path_splitext (lit "notes.docx"))) = lit ".docx" \/
          lower (snd (os_path_splitext (lit "notes.docx"))) = lit ".doc") as Hext.
  { left. reflexivity. }
  destruct (docx_without_headings_is_one_unit (wld := toy_world)
              (lit "notes.docx") notes papers init Hext eq_refl Hnotes) as [Hone _].
  apply Hone. vm_compute. discriminate.
Defined.

Lemma report_well_formed : Forall well_formed_section report.
Proof.
  repeat (apply Forall_cons_2; [| try apply Forall_nil_2]).
  all: split; [reflexivity |]; split; [reflexivity |]; split;
    [repeat (apply Forall_cons_2; [reflexivity |]); apply Forall_nil_2
    | vm_compute; discriminate].
Qed.

(** The file with the sections "Intro" and "Methods": two units with
    these labels. *)
Lemma docx_sections_become_units_witness :
  label <$> pages (snd (fst (load (lit "report.DOC") (papers, init))))
  = [lit "Intro"; lit "Methods"].
Proof.
  assert (lower (snd (os_path_splitext (lit "report.DOC"))) = lit ".docx" \/
          lower (snd (os_path_splitext (lit "report.DOC"))) = lit ".doc") as Hext.
  { right. reflexivity. }
  assert (report <> []) as Hne by discriminate.
  destruct (docx_sections_become_units (wld := toy_world)
              (lit "report.DOC") report papers init Hext eq_refl report_well_formed Hne)
    as [_ Hpages].
  exact (f_equal (fmap label) Hpages).
Defined.

(** The file without headings has a paragraph with text, and loads. *)
Lemma docx_loads_iff_a_paragraph_has_text_witness :
  snd (load (lit "notes.docx") (papers, init)) = Ok true.
Proof.
  assert (lower (snd (os_path_splitext (lit "notes.docx"))) = lit ".docx" \/
          lower (snd (os_path_splitext (lit "notes.docx"))) = lit ".doc") as Hext.
  { left. reflexivity. }
  apply (docx_loads_iff_a_paragraph_has_text (wld := toy_world)
           (lit "notes.docx") notes papers init Hext eq_refl).
  apply Exists_cons_hd. apply Exists_cons_tl, Exists_cons_hd. reflexivity.
Defined.

(** The e-book: of its four items the two long documents are kept. *)
Lemma epub_units_are_the_long_documents_witness :
  snd (load (lit "book.epub") (papers, init)) = Ok true /\
  length (pages (snd (fst (load (lit "book.epub") (papers, init))))) = 2%nat.
Proof.
  assert (lower (snd (os_path_splitext (lit "book.epub"))) = lit ".epub") as Hext
    by reflexivity.
  assert (epub_read_epub papers (lit "book.epub") = Ok book) as Hread by reflexivity.
  destruct (epub_units_are_the_long_documents (wld := toy_world)
              (lit "book.epub") book papers init Hext Hread) as [Hiff Hunits].
  split.
  - apply Hiff. apply Exists_cons_tl, Exists_cons_tl, Exists_cons_hd.
    vm_compute. reflexivity.
  - apply Forall2_length in Hunits. exact Hunits.
Defined.

(** The PDF with a blank second page. *)
Lemma pdf_units_are_the_pages_with_text_witness :
  text <$> pages (snd (fst (load (lit "b.pdf") (papers, init))))
  = [lit "one"; lit "three"].
Proof.
  assert (lower (snd (os_path_splitext (lit "b.pdf"))) = lit ".pdf") as Hext
    by reflexivity.
  assert (fitz_open papers (lit "b.pdf")
          = Ok [Ok (lit "one"); Ok (lit "  "); Ok (lit " three ")]) as Hread
    by reflexivity.
  destruct (pdf_units_are_the_pages_with_text (wld := toy_world)
              (lit "b.pdf") [Ok (lit "one"); Ok (lit "  "); Ok (lit " three ")]
              papers init Hext Hread) as [_ Hunits].
  destruct Hunits as [Htexts _]; [| exact Htexts].
  intros Hin. repeat (apply elem_of_cons in Hin as [[=] | Hin]).
  by apply elem_of_nil in Hin.
Defined.

(** The units of the loaded text file. *)
Lemma loaded_units_have_text_witness :
  index_docs (pages (snd first_loaded)) <> [] /\
  length (index_docs (pages (snd first_loaded))) = 4%nat.
Proof.
  assert (load (lit "a.txt") (library, init) = (first_loaded, Ok true)) as Hload.
  { vm_compute. reflexivity. }
  split; [| vm_compute; reflexivity].
  exact (proj2 (loaded_units_have_text (wld := toy_world) (lit "a.txt") library init
                  first_loaded Hload)).
Defined.

(** Unloading the loaded text file twice: the deletion succeeds. *)
Lemma unload_twice_when_handle_cleared_witness :
  unloaded (snd (fst (unload false first_loaded))) /\
  unload true (fst (unload false first_loaded))
  = (fst (unload false first_loaded), Ok true).
Proof.
  apply (unload_twice_when_handle_cleared (wld := toy_world) false true
           (fst first_loaded) (snd first_loaded)).
  vm_compute. reflexivity.
Defined.

(** A text file of blanks, on a fresh processor. *)
Lemma failed_load_unloaded_witness :
  unloaded (snd (fst (load (lit "blank.txt") (papers, init)))).
Proof.
  apply (failed_load_unloaded (wld := toy_world) (lit "blank.txt") papers init).
  - vm_compute. reflexivity.
  - reflexivity.
  - vm_compute. discriminate.
Defined.

End More_runs_in_the_toy_world.

(** ** The two places where the units' numbering and the snippets part from
    what is said of them *)

Section Numbering_and_snippets.
Import Toy Examples Formats.

(** C3 at a failing input.  The PDF whose second page is blank loads with
    two units that carry the indexes 0 and 2: [_load_pdf] numbers a unit
    with the page number of [enumerate] although it skips blank pages,
    where [_load_epub], which skips items too, numbers the kept units with
    a counter of its own (the e-book with two skipped items gives 0 and
    1).  The index is then no position in the pages: a search for "three"
    reports page 2, there are 2 pages, and [go_to_page 2] is refused and
    [get_page 2] is empty. *)
Theorem pdf_index_is_no_position :
  snd (load (lit "b.pdf") (library, init)) = Ok true /\
  index <$> pages (snd reading_pdf) = [0; 2] /\
  page_count (snd reading_pdf) = 2 /\
  m_page <$> search (snd reading_pdf) (lit "three") = [2] /\
  go_to_page (snd reading_pdf) 2 = (snd reading_pdf, false) /\
  get_page (snd reading_pdf) 2 = [] /\
  ~ contiguous (pages (snd reading_pdf)) /\
  snd (load (lit "book.epub") (papers, init)) = Ok true /\
  index <$> pages (snd (fst (load (lit "book.epub") (papers, init)))) = [0; 1].
Proof.
  repeat (split; [vm_compute; reflexivity |]).
  split; [| split; vm_compute; reflexivity].
  intros Hc. specialize (Hc 1%nat (Page 2 (lit "three") (lit "Page 3")) eq_refl).
  discriminate Hc.
Qed.

(** C9, as stated, fails on a unit of 75 characters with the query at
    offset 70: the unit is shorter than the window of 180 characters, and
    yet the snippet starts 60 characters before the match, at offset 10,
    and so is not the whole text. *)
Lemma short_unit_with_a_late_match_is_clipped :
  len (replicate 70 "x"%char ++ lit "hello") = 75 /\
  find (lower (replicate 70 "x"%char ++ lit "hello")) (lower (lit "hello")) = 70 /\
  search (Collection := unit)
    (mkDP [Page 0 (replicate 70 "x"%char ++ lit "hello") (lit "Section 1")]
          0 None None [] [] None)
    (lit "hello")
  = [Match 0 (lit "Section 1") (replicate 60 "x"%char ++ lit "hello")] /\
  replicate 60 "x"%char ++ lit "hello" <> replicate 70 "x"%char ++ lit "hello".
Proof.
  repeat (split; [vm_compute; reflexivity |]).
  vm_compute. discriminate.
Qed.

End Numbering_and_snippets.
